(** * License chain suite: license verification and application intake

    A shallow embedding of the two pages of the front-end that carry rules:

    - [src/pages/Verify.tsx], the anonymous lookup of a license by number
      ([handleVerify]), together with the [licenses] table and its public
      read policy from the migrations;
    - the application page ([applicationSchema], [onSubmit]) together with
      the [license_applications] table.

    The migrations are embedded beside them: the row-level security
    policies of the four tables, [has_role], and the new-user trigger.

    JavaScript objects built with object literals and kept in [any] typed
    state are finite maps from property names to values; rows of the typed
    tables are records; React state, toasts, console output and navigation
    are threaded through explicitly. *)

From Stdlib Require Import ZArith Ascii String List.
From stdpp Require Import gmap strings list fin_maps.

(** ** JavaScript values and objects *)

Module JS.

Inductive JsVal : Type :=
| VUndefined
| VNull
| VBool (b : bool)
| VStr (s : string).

#[global] Instance JsVal_eq_dec : EqDecision JsVal.
Proof. solve_decision. Defined.

(** [typeof]-like tag used by zod's [getParsedType]. *)
Definition parsedType (v : JsVal) : string :=
  match v with
  | VUndefined => "undefined"
  | VNull => "null"
  | VBool _ => "boolean"
  | VStr _ => "string"
  end.

(** Property read [o.k]: a missing property reads as [undefined]. *)
Definition get (o : gmap string JsVal) (k : string) : JsVal :=
  default VUndefined (o !! k).

(** [v || d] for a nullable string [v]: [null] and the empty string are
    falsy, every other string is truthy. *)
Definition or_else (v : option string) (d : string) : string :=
  match v with
  | None => d
  | Some s => if decide (s = "") then d else s
  end.

(** [s.length]: the number of UTF-16 code units of the text. A string
    here holds the UTF-8 bytes of the text: a byte that starts a character
    of one, two or three bytes counts one unit, a byte that starts a
    four-byte character counts two (a surrogate pair), and a continuation
    byte counts none. *)
Fixpoint utf16_length (s : string) : nat :=
  match s with
  | EmptyString => 0
  | String a rest =>
      let b := nat_of_ascii a in
      (if (b <? 128)%nat then 1
       else if (b <? 192)%nat then 0
       else if (b <? 240)%nat then 1
       else 2)%nat
      + utf16_length rest
  end.

End JS.
Import JS.

(** ** Dates

    A [Date] is its time value: milliseconds since the epoch, or [NaN]
    (here [None]) for an invalid date. *)

Module Date.

Definition time_value : Type := option Z.

(** [a < b] on two [Date] objects compares the time values as numbers;
    every comparison with [NaN] is [false]. *)
Definition lt (a b : time_value) : bool :=
  match a, b with
  | Some x, Some y => (x <? y)%Z
  | _, _ => false
  end.

(** *** A concrete reading of timestamps, for closed examples

    [iso_parse] reads the timestamps a [timestamptz] column is served as:
    a calendar date, [T] or a space, a time of day with optional
    fractional seconds (cut to milliseconds), and [Z], an offset [+HH]
    or [+HH:MM], or nothing. Every other string, ["infinity"] included,
    is [NaN]. *)

Definition digit (a : ascii) : option Z :=
  let n := nat_of_ascii a in
  if (48 <=? n)%nat && (n <=? 57)%nat then Some (Z.of_nat (n - 48)) else None.

Fixpoint digits (n : nat) (acc : Z) (s : string) : option (Z * string) :=
  match n with
  | O => Some (acc, s)
  | S n' =>
      match s with
      | String a rest =>
          match digit a with
          | Some d => digits n' (10 * acc + d)%Z rest
          | None => None
          end
      | EmptyString => None
      end
  end.

Definition expect (c : ascii) (s : string) : option string :=
  match s with
  | String a rest => if decide (a = c) then Some rest else None
  | EmptyString => None
  end.

Definition is_leap (y : Z) : bool :=
  ((y mod 4 =? 0) && negb (y mod 100 =? 0) || (y mod 400 =? 0))%Z.

Definition days_in_month (y m : Z) : Z :=
  if (m =? 2)%Z then (if is_leap y then 29 else 28)%Z
  else if ((m =? 4) || (m =? 6) || (m =? 9) || (m =? 11))%Z then 30%Z
  else 31%Z.

(** Days from 1970-01-01 to the civil date [y-m-d] (proleptic Gregorian). *)
Definition days_from_civil (y m d : Z) : Z :=
  let y' := (if m <=? 2 then y - 1 else y)%Z in
  let era := (y' / 400)%Z in
  let yoe := (y' - era * 400)%Z in
  let mp := ((m + 9) mod 12)%Z in
  let doy := ((153 * mp + 2) / 5 + d - 1)%Z in
  let doe := (yoe * 365 + yoe / 4 - yoe / 100 + doy)%Z in
  (era * 146097 + doe - 719468)%Z.

(** Inverse of [days_from_civil]: the civil date of a day number. *)
Definition civil_from_days (z : Z) : Z * Z * Z :=
  let z' := (z + 719468)%Z in
  let era := (z' / 146097)%Z in
  let doe := (z' - era * 146097)%Z in
  let yoe := ((doe - doe / 1460 + doe / 36524 - doe / 146096) / 365)%Z in
  let doy := (doe - (365 * yoe + yoe / 4 - yoe / 100))%Z in
  let mp := ((5 * doy + 2) / 153)%Z in
  let d := (doy - (153 * mp + 2) / 5 + 1)%Z in
  let m := (if mp <? 10 then mp + 3 else mp - 9)%Z in
  let y := (yoe + era * 400 + (if m <=? 2 then 1 else 0))%Z in
  (y, m, d).

(** Digits after the decimal point: the first three are the
    milliseconds, the rest is dropped. *)
Fixpoint fraction (place acc : Z) (s : string) : Z * string :=
  match s with
  | String a rest =>
      match digit a with
      | Some d => fraction (place / 10)%Z (acc + d * place)%Z rest
      | None => (acc, s)
      end
  | EmptyString => (acc, s)
  end.

Definition milliseconds (s : string) : option (Z * string) :=
  match expect "." s with
  | Some rest =>
      match rest with
      | String a _ =>
          match digit a with
          | Some _ => Some (fraction 100 0 rest)
          | None => None
          end
      | EmptyString => None
      end
  | None => Some (0%Z, s)
  end.

(** The zone designator, in minutes east of UTC. Without a designator
    the time is local time, which is UTC in the browser of these
    examples. *)
Definition zone (s : string) : option Z :=
  if bool_decide (s = "Z") || bool_decide (s = "") then Some 0%Z
  else
    match s with
    | String sg rest =>
        sign ← (if decide (sg = "+"%char) then Some 1%Z
                else if decide (sg = "-"%char) then Some (-1)%Z
                else None);
        '(h, rest) ← digits 2 0 rest;
        '(m, rest) ← (if bool_decide (rest = "") then Some (0%Z, rest)
                      else rest ← expect ":" rest; digits 2 0 rest);
        if bool_decide (rest = "") && (h <=? 23)%Z && (m <=? 59)%Z
        then Some (sign * (h * 60 + m))%Z
        else None
    | EmptyString => None
    end.

Definition separator (s : string) : option string :=
  match s with
  | String a rest =>
      if decide (a = "T"%char) then Some rest
      else if decide (a = " "%char) then Some rest
      else None
  | EmptyString => None
  end.

Definition iso_parse (s : string) : time_value :=
  '(y, s) ← digits 4 0 s;
  s ← expect "-" s;
  '(m, s) ← digits 2 0 s;
  s ← expect "-" s;
  '(d, s) ← digits 2 0 s;
  s ← separator s;
  '(hh, s) ← digits 2 0 s;
  s ← expect ":" s;
  '(mi, s) ← digits 2 0 s;
  s ← expect ":" s;
  '(ss, s) ← digits 2 0 s;
  '(ms, s) ← milliseconds s;
  east ← zone s;
  if ((1 <=? m) && (m <=? 12) && (1 <=? d) && (d <=? days_in_month y m)
      && (hh <=? 23) && (mi <=? 59) && (ss <=? 59))%Z
  then Some (((((days_from_civil y m d * 24 + hh) * 60 + mi) * 60 + ss) * 1000
              + ms - east * 60000))%Z
  else None.

Definition month_name (m : Z) : string :=
  match m with
  | 1 => "January" | 2 => "February" | 3 => "March" | 4 => "April"
  | 5 => "May" | 6 => "June" | 7 => "July" | 8 => "August"
  | 9 => "September" | 10 => "October" | 11 => "November" | _ => "December"
  end%Z.

Fixpoint decimal_fuel (fuel : nat) (n : Z) (acc : string) : string :=
  match fuel with
  | O => acc
  | S fuel' =>
      let acc' := String (ascii_of_nat (48 + Z.to_nat (n mod 10))) acc in
      if (n / 10 =? 0)%Z then acc' else decimal_fuel fuel' (n / 10)%Z acc'
  end.

Definition decimal (n : Z) : string := decimal_fuel 20 n "".

(** [toLocaleDateString('en-US', {year: 'numeric', month: 'long',
    day: 'numeric'})] in a browser whose time zone is UTC. *)
Definition utc_long_date (t : time_value) : string :=
  match t with
  | None => "Invalid Date"
  | Some ms =>
      let '(y, m, d) := civil_from_days (ms / 86400000)%Z in
      month_name m +:+ " " +:+ decimal d +:+ ", " +:+ decimal y
  end.

End Date.


(** ** Errors reported by the store client *)

Module Postgrest.

Record PostgrestError : Type := {
  code : string;
  message : string
}.

Definition PGRST116 : PostgrestError :=
  {| code := "PGRST116";
     message := "JSON object requested, multiple (or no) rows returned" |}.

End Postgrest.
Import Postgrest.

(** ** The store: the [licenses] table and its anonymous read path *)

Module Licenses.

(** A row of [public.licenses] as the store hands it to a client:
    [uuid], [text] and [timestamptz] columns arrive as strings, the
    nullable [blockchain_hash] may be [null]. *)
Record Row : Type := {
  id : string;
  application_id : string;
  user_id : string;
  license_number : string;
  license_type : string;
  business_name : string;
  issue_date : string;
  expiry_date : string;
  status : string;
  blockchain_hash : option string;
  created_at : string;
  updated_at : string
}.

(** The columns named in
    [.select('license_number, license_type, status, business_name,
              issue_date, expiry_date, blockchain_hash')]. *)
Record Selected : Type := {
  sel_license_number : string;
  sel_license_type : string;
  sel_status : string;
  sel_business_name : string;
  sel_issue_date : string;
  sel_expiry_date : string;
  sel_blockchain_hash : option string
}.

Definition select (r : Row) : Selected :=
  {| sel_license_number := license_number r;
     sel_license_type := license_type r;
     sel_status := status r;
     sel_business_name := business_name r;
     sel_issue_date := issue_date r;
     sel_expiry_date := expiry_date r;
     sel_blockchain_hash := blockchain_hash r |}.

(** The row [r] with its [blockchain_hash] column set to [h]. *)
Definition with_hash (h : option string) (r : Row) : Row :=
  {| id := id r; application_id := application_id r; user_id := user_id r;
     license_number := license_number r; license_type := license_type r;
     business_name := business_name r; issue_date := issue_date r;
     expiry_date := expiry_date r; status := status r;
     blockchain_hash := h;
     created_at := created_at r; updated_at := updated_at r |}.

(** The row [r] with its [status] column set to [st]. *)
Definition with_status (st : string) (r : Row) : Row :=
  {| id := id r; application_id := application_id r; user_id := user_id r;
     license_number := license_number r; license_type := license_type r;
     business_name := business_name r; issue_date := issue_date r;
     expiry_date := expiry_date r; status := st;
     blockchain_hash := blockchain_hash r;
     created_at := created_at r; updated_at := updated_at r |}.

(** [CHECK (status IN ('active', 'expired', 'suspended', 'revoked'))]. *)
Definition status_check (r : Row) : bool :=
  bool_decide (status r ∈ ["active"; "expired"; "suspended"; "revoked"]).

(** [license_number TEXT NOT NULL UNIQUE]. *)
Definition unique_license_number (table : list Row) : Prop :=
  NoDup (license_number <$> table).

(** Policy "Public can verify basic license info":
    [FOR SELECT USING (true)]. *)
Definition public_can_verify (r : Row) : bool := true.

(** What [await]ing a query builder yields: [{ data, error }]. *)
Record Response : Type := {
  data : option Selected;
  error : option PostgrestError
}.

(** The awaited promise either fulfils with a response or rejects. *)
Inductive Awaited : Type :=
| Fulfilled (r : Response)
| Thrown (reason : string).

(** [.eq('license_number', licenseId)]: the rows the policy lets the
    caller see whose [license_number] is the given string. *)
Definition eq_license_number (licenseId : string) (table : list Row) : list Row :=
  filter (λ r, public_can_verify r = true ∧ license_number r = licenseId) table.

(** [.maybeSingle()]: no row is [data: null] without an error, one row is
    that row, several rows are an error. *)
Definition maybeSingle (rows : list Selected) : Response :=
  match rows with
  | [] => {| data := None; error := None |}
  | [d] => {| data := Some d; error := None |}
  | _ :: _ :: _ => {| data := None; error := Some PGRST116 |}
  end.

(** The whole query of [handleVerify], answered by a reachable store. *)
Definition verify_query (table : list Row) (licenseId : string) : Response :=
  maybeSingle (select <$> eq_license_number licenseId table).

End Licenses.

(** ** Toast notifications, shared by both pages *)

Record Toast : Type := {
  title : string;
  description : string;
  variant : option string
}.

(** ** The verification page, [Verify.tsx] *)

Module Verify.

Import Licenses.

(** The component's state hooks, plus the toasts raised and the lines
    written with [console.error]. *)
Record State : Type := {
  licenseId : string;
  verificationResult : option (gmap string JsVal);
  loading : bool;
  toasts : list Toast;
  console : list string
}.

Definition setLoading (b : bool) (s : State) : State :=
  {| licenseId := licenseId s; verificationResult := verificationResult s;
     loading := b; toasts := toasts s; console := console s |}.

Definition setVerificationResult (r : option (gmap string JsVal)) (s : State) : State :=
  {| licenseId := licenseId s; verificationResult := r;
     loading := loading s; toasts := toasts s; console := console s |}.

Definition toast (t : Toast) (s : State) : State :=
  {| licenseId := licenseId s; verificationResult := verificationResult s;
     loading := loading s; toasts := toasts s ++ [t]; console := console s |}.

Definition console_error (line : string) (s : State) : State :=
  {| licenseId := licenseId s; verificationResult := verificationResult s;
     loading := loading s; toasts := toasts s; console := console s ++ [line] |}.

Definition initial : State :=
  {| licenseId := ""; verificationResult := None; loading := false;
     toasts := []; console := [] |}.

Section Handler.

(** [new Date(str)] and the en-US long rendering of a date belong to
    the browser; the handler is read for any such pair. *)
Variable Date_parse : string → Date.time_value.
Variable toLocaleDateString : Date.time_value → string.

(** The object literal of the match branch. [now] is [new Date()]. *)
Definition found_result (now : Z) (d : Selected) : gmap string JsVal :=
  let expiryDate := Date_parse (sel_expiry_date d) in
  let isExpired := Date.lt expiryDate (Some now) in
  {[ "isValid" := VBool (negb isExpired && bool_decide (sel_status d = "active"));
     "licenseNumber" := VStr (sel_license_number d);
     "businessName" := VStr (sel_business_name d);
     "licenseType" := VStr (sel_license_type d);
     "issueDate" := VStr (toLocaleDateString (Date_parse (sel_issue_date d)));
     "expiryDate" := VStr (toLocaleDateString (Date_parse (sel_expiry_date d)));
     "status" := VStr (if isExpired then "Expired" else sel_status d);
     "blockchainHash" := VStr (or_else (sel_blockchain_hash d) "N/A") ]}.

(** The object literal of the no-match branch. *)
Definition not_found_result (licenseId : string) : gmap string JsVal :=
  {[ "isValid" := VBool false; "licenseNumber" := VStr licenseId ]}.

(** [handleVerify] up to its [await]: the two state updates that
    precede the query. *)
Definition handleVerify_begin (s : State) : State :=
  setVerificationResult None (setLoading true s).

(** [handleVerify] from the [await] on. [queried] is the [licenseId]
    the handler closed over. The error branch sets [loading] itself and
    returns through [finally], which sets it again. *)
Definition handleVerify_resume (now : Z) (queried : string) (a : Awaited) (s : State) : State :=
  match a with
  | Fulfilled r =>
      match error r with
      | Some e =>
          let s := console_error ("Verification error: " +:+ message e) s in
          let s := toast {| title := "Error";
                            description := "Failed to verify license. Please try again.";
                            variant := Some "destructive" |} s in
          let s := setLoading false s in
          setLoading false s
      | None =>
          let s :=
            match data r with
            | None => setVerificationResult (Some (not_found_result queried)) s
            | Some d => setVerificationResult (Some (found_result now d)) s
            end in
          setLoading false s
      end
  | Thrown reason =>
      let s := console_error ("Unexpected error: " +:+ reason) s in
      let s := toast {| title := "Error";
                        description := "An unexpected error occurred.";
                        variant := Some "destructive" |} s in
      setLoading false s
  end.

(** One submission of the form. [store] answers the query. *)
Definition handleVerify (now : Z) (store : string → Awaited) (s : State) : State :=
  let queried := licenseId s in
  handleVerify_resume now queried (store queried) (handleVerify_begin s).

(** The store that is reachable and holds [table]. *)
Definition supabase (table : list Row) : string → Awaited :=
  λ licenseId, Fulfilled (verify_query table licenseId).

End Handler.

End Verify.

(** ** Schema validation, as zod and the form resolver run it *)

Module Zod.

Record ZodIssue : Type := {
  path : string;
  issue_message : string
}.

(** The string checks the schema uses, each with its custom message. *)
Inductive StringCheck : Type :=
| min (n : nat) (msg : string)
| max (n : nat) (msg : string)
| email (msg : string).

Inductive SafeParse : Type :=
| Success (data : gmap string JsVal)
| Failure (issues : list ZodIssue).

Section Parse.

(** The regular expression behind [.email()] lives in the library. *)
Variable emailRegex : string → bool.

(** The message of a violated check: [min] fails on
    [length < n], [max] on [length > n]. *)
Definition violated (c : StringCheck) (s : string) : option string :=
  match c with
  | min n msg => if (utf16_length s <? n)%nat then Some msg else None
  | max n msg => if (n <? utf16_length s)%nat then Some msg else None
  | email msg => if emailRegex s then None else Some msg
  end.

(** [z.string()] with its checks: a value that is not a string is one
    type issue; on a string every check runs and reports. *)
Definition string_issues (checks : list StringCheck) (v : JsVal) : list string :=
  match v with
  | VStr s => omap (λ c, violated c s) checks
  | VUndefined => ["Required"]
  | _ => ["Expected string, received " +:+ parsedType v]
  end.

(** [z.object(shape)]: the issues of every key in shape order, each
    under the key as its path. *)
Definition object_issues (shape : list (string * list StringCheck))
    (input : gmap string JsVal) : list ZodIssue :=
  shape ≫= λ '(k, checks),
    (λ m, {| path := k; issue_message := m |}) <$> string_issues checks (get input k).

(** Keys outside the shape are stripped from the parsed value; a key of
    the shape is kept when the input has it. *)
Definition strip (shape : list (string * list StringCheck))
    (input : gmap string JsVal) : gmap string JsVal :=
  list_to_map (omap (λ '(k, _), (λ v, (k, v)) <$> input !! k) shape).

Definition safeParse (shape : list (string * list StringCheck))
    (input : gmap string JsVal) : SafeParse :=
  match object_issues shape input with
  | [] => Success (strip shape input)
  | issues => Failure issues
  end.

End Parse.

(** The resolver keeps, for each field, the message of its first issue. *)
Definition toFieldErrors (issues : list ZodIssue) : gmap string string :=
  fold_left
    (λ errors i,
       match errors !! path i with
       | Some _ => errors
       | None => <[path i := issue_message i]> errors
       end)
    issues ∅.

(** The message of the first issue reported under the path [k]. *)
Definition first_message (k : string) (issues : list ZodIssue) : option string :=
  issue_message <$> head (filter (λ i, path i = k) issues).

(** A stand-in for the library's email expression, for closed examples,
    after the expression of zod 3.22, read without regard to case: a
    local part of letters, digits and the signs underscore, apostrophe,
    plus, minus and dot, that does not begin with a dot, has no two dots
    in a row and ends with a letter, a digit, an underscore, a plus or a
    minus; an at sign; one or more labels, each a letter or digit
    followed by letters, digits and minus signs and closed by a dot; and
    a last part of two or more letters. *)
Definition alpha (a : ascii) : bool :=
  let n := nat_of_ascii a in
  ((65 <=? n) && (n <=? 90) || (97 <=? n) && (n <=? 122))%nat.

Definition alnum (a : ascii) : bool :=
  let n := nat_of_ascii a in
  alpha a || ((48 <=? n) && (n <=? 57))%nat.

Definition is_char (c a : ascii) : bool := bool_decide (a = c).

(** The pieces of [l] between occurrences of [c]. *)
Fixpoint split_on (c : ascii) (l : list ascii) : list (list ascii) :=
  match l with
  | [] => [[]]
  | a :: rest =>
      if is_char c a then [] :: split_on c rest
      else match split_on c rest with
           | piece :: pieces => (a :: piece) :: pieces
           | [] => [[a]]
           end
  end.

Fixpoint double_dot (l : list ascii) : bool :=
  match l with
  | a :: rest =>
      match rest with
      | b :: _ => is_char "." a && is_char "." b || double_dot rest
      | [] => false
      end
  | [] => false
  end.

Definition local_part (l : list ascii) : bool :=
  match l, last l with
  | first :: _, Some final =>
      negb (is_char "." first)
      && negb (double_dot l)
      && forallb (λ a, alnum a || is_char "_" a || is_char "'" a || is_char "+" a
                       || is_char "-" a || is_char "." a) l
      && (alnum final || is_char "_" final || is_char "+" final || is_char "-" final)
  | _, _ => false
  end.

Definition domain_label (l : list ascii) : bool :=
  match l with
  | first :: rest => alnum first && forallb (λ a, alnum a || is_char "-" a) rest
  | [] => false
  end.

Definition top_level (l : list ascii) : bool :=
  (2 <=? length l)%nat && forallb alpha l.

Definition simple_email (s : string) : bool :=
  match split_on "@" (list_ascii_of_string s) with
  | [loc; dom] =>
      match reverse (split_on "." dom) with
      | top :: (_ :: _) as labels =>
          local_part loc && top_level top && forallb domain_label labels
      | _ => false
      end
  | _ => false
  end.

End Zod.

(** ** The application page *)

Module Apply.

Import Zod.

Definition applicationSchema : list (string * list StringCheck) :=
  [ ("license_type", [min 1 "Please select a license type"]);
    ("business_name", [min 2 "Business name must be at least 2 characters";
                       max 200 "Business name is too long"]);
    ("registration_number", [min 3 "Registration number is required";
                             max 50 "Registration number is too long"]);
    ("business_address", [min 10 "Please provide a complete address";
                          max 500 "Address is too long"]);
    ("contact_person", [min 2 "Contact person name is required";
                        max 100 "Name is too long"]);
    ("contact_email", [email "Please provide a valid email address";
                       max 255 "Email is too long"]);
    ("phone_number", [min 10 "Please provide a valid phone number";
                      max 20 "Phone number is too long"]);
    ("business_type", [min 1 "Please select a business type"]);
    ("business_description",
       [min 20 "Please provide a detailed description (at least 20 characters)";
        max 1000 "Description is too long"]) ].

(** [session.user]; the page reads only its [id]. *)
Record User : Type := { id : string }.

(** What [await]ing the insert yields: [{ error }], or a rejection. *)
Inductive Awaited : Type :=
| Fulfilled (error : option PostgrestError)
| Thrown (reason : string).

(** The component's state hooks, the form's field errors, and the
    toasts, navigations and console lines produced. *)
Record State : Type := {
  user : option User;
  loading : bool;
  errors : gmap string string;
  toasts : list Toast;
  navigations : list string;
  console : list string
}.

Definition setUser (u : option User) (s : State) : State :=
  {| user := u; loading := loading s; errors := errors s;
     toasts := toasts s; navigations := navigations s; console := console s |}.

Definition setLoading (b : bool) (s : State) : State :=
  {| user := user s; loading := b; errors := errors s;
     toasts := toasts s; navigations := navigations s; console := console s |}.

Definition setErrors (e : gmap string string) (s : State) : State :=
  {| user := user s; loading := loading s; errors := e;
     toasts := toasts s; navigations := navigations s; console := console s |}.

Definition toast (t : Toast) (s : State) : State :=
  {| user := user s; loading := loading s; errors := errors s;
     toasts := toasts s ++ [t]; navigations := navigations s; console := console s |}.

Definition navigate (to : string) (s : State) : State :=
  {| user := user s; loading := loading s; errors := errors s;
     toasts := toasts s; navigations := navigations s ++ [to]; console := console s |}.

Definition console_error (line : string) (s : State) : State :=
  {| user := user s; loading := loading s; errors := errors s;
     toasts := toasts s; navigations := navigations s; console := console s ++ [line] |}.

Definition initial : State :=
  {| user := None; loading := false; errors := ∅;
     toasts := []; navigations := []; console := [] |}.

Definition authentication_required : Toast :=
  {| title := "Authentication Required";
     description := "Please log in to submit an application.";
     variant := Some "destructive" |}.

(** [checkAuth], run once when the page mounts, on the session that
    [getSession] returned. *)
Definition checkAuth (session : option User) (s : State) : State :=
  match session with
  | None => navigate "/login" (toast authentication_required s)
  | Some u => setUser (Some u) s
  end.

(** The [onAuthStateChange] callback. *)
Definition onAuthStateChange (session : option User) (s : State) : State :=
  match session with
  | None => navigate "/login" s
  | Some u => setUser (Some u) s
  end.

(** The object literal handed to [.insert(...)]. *)
Definition insert_payload (u : User) (data : gmap string JsVal) : gmap string JsVal :=
  {[ "user_id" := VStr (id u);
     "license_type" := get data "license_type";
     "business_name" := get data "business_name";
     "registration_number" := get data "registration_number";
     "business_address" := get data "business_address";
     "contact_person" := get data "contact_person";
     "contact_email" := get data "contact_email";
     "phone_number" := get data "phone_number";
     "business_type" := get data "business_type";
     "business_description" := get data "business_description";
     "status" := VStr "pending" ]}.

(** [onSubmit]: the final state, and the payloads sent to
    [license_applications] in order. [store] answers an insert. *)
Definition onSubmit (store : gmap string JsVal → Awaited)
    (data : gmap string JsVal) (s : State) : State * list (gmap string JsVal) :=
  match user s with
  | None => (navigate "/login" (toast authentication_required s), [])
  | Some u =>
      let s := setLoading true s in
      let row := insert_payload u data in
      let s :=
        match store row with
        | Fulfilled (Some e) =>
            let s := console_error ("Application submission error: " +:+ message e) s in
            toast {| title := "Submission Failed";
                     description :=
                       or_else (Some (message e))
                         "Failed to submit application. Please try again.";
                     variant := Some "destructive" |} s
        | Fulfilled None =>
            let s := toast {| title := "Application Submitted";
                              description :=
                                "Your license application has been submitted successfully!";
                              variant := None |} s in
            navigate "/dashboard" s
        | Thrown reason =>
            let s := console_error ("Unexpected error: " +:+ reason) s in
            toast {| title := "Error";
                     description := "An unexpected error occurred. Please try again.";
                     variant := Some "destructive" |} s
        end in
      (setLoading false s, [row])
  end.

Section Form.

Variable emailRegex : string → bool.

(** [form.handleSubmit(onSubmit)] with the zod resolver: the handler
    runs only on values the schema accepts, and receives the parsed
    value; otherwise the field errors are set. *)
Definition handleSubmit (store : gmap string JsVal → Awaited)
    (values : gmap string JsVal) (s : State) : State * list (gmap string JsVal) :=
  match safeParse emailRegex applicationSchema values with
  | Failure issues => (setErrors (toFieldErrors issues) s, [])
  | Success data => onSubmit store data (setErrors ∅ s)
  end.

End Form.

End Apply.

(** ** What the application page is told about the session *)

Module Session.

Import Apply.

(** The answer of [getSession] when the page mounts, and each notice
    delivered to the [onAuthStateChange] callback; either carries the
    session's user, or none when there is no session. *)
Inductive Notice : Type :=
| Checked (session : option User)
| Changed (session : option User).

Definition session_of (n : Notice) : option User :=
  match n with
  | Checked session | Changed session => session
  end.

Definition notify (s : State) (n : Notice) : State :=
  match n with
  | Checked session => checkAuth session s
  | Changed session => onAuthStateChange session s
  end.

(** The page after the notices it received since it mounted, in order. *)
Definition page_after (notices : list Notice) : State :=
  fold_left notify notices initial.

(** The session the caller holds: the one reported last, none before
    any report. *)
Definition current_session (notices : list Notice) : option User :=
  mjoin (last (session_of <$> notices)).

(** The user of the most recent notice that carried a session. *)
Definition last_signed_in (notices : list Notice) : option User :=
  last (omap session_of notices).

End Session.

(** ** Sample data for closed examples *)

Module Sample.

Import Licenses.

(** 2025-01-01T00:00:00Z as a time value. *)
Definition new_year_2025 : Z := 1735689600000.

Definition acme : Row :=
  {| id := "0b6a4a1e-5a0f-4a53-9d5c-1f0c2a9e7b11";
     application_id := "5d1c7b7e-93f4-4d0a-8a55-3f2a6c1d9e20";
     user_id := "c2f1d6a0-7e3b-4b8c-9f6d-2a4e8b0c1d33";
     license_number := "LIC-2024-00001";
     license_type := "Business License";
     business_name := "Acme Trading";
     issue_date := "2024-01-01T00:00:00+00:00";
     expiry_date := "2025-01-01T00:00:00+00:00";
     status := "active";
     blockchain_hash := Some "0x9f2c41";
     created_at := "2024-01-01T00:00:00+00:00";
     updated_at := "2024-01-01T00:00:00+00:00" |}.

(** The same public columns under another owner and application. *)
Definition acme_other_owner : Row :=
  {| id := "ffffffff-0000-4000-8000-000000000001";
     application_id := "ffffffff-0000-4000-8000-000000000002";
     user_id := "ffffffff-0000-4000-8000-000000000003";
     license_number := license_number acme;
     license_type := license_type acme;
     business_name := business_name acme;
     issue_date := issue_date acme;
     expiry_date := expiry_date acme;
     status := status acme;
     blockchain_hash := blockchain_hash acme;
     created_at := "2024-06-01T00:00:00+00:00";
     updated_at := "2024-06-02T00:00:00+00:00" |}.

(** A store that is down. *)
Definition unavailable : string → Awaited :=
  λ _, Fulfilled {| data := None;
                    error := Some {| code := "503"; message := "Service Unavailable" |} |}.

(** The page with a number typed in and an earlier result on display. *)
Definition typed (number : string) : Verify.State :=
  {| Verify.licenseId := number;
     Verify.verificationResult := Some (Verify.not_found_result "LIC-0000-00000");
     Verify.loading := false;
     Verify.toasts := [];
     Verify.console := [] |}.

(** A filled-in form that also carries a [status] of its own. *)
Definition form_values (description : string) : gmap string JsVal :=
  {[ "license_type" := VStr "Business License";
     "business_name" := VStr "Acme Trading";
     "registration_number" := VStr "REG-778899";
     "business_address" := VStr "12 Harbour Road, Springfield";
     "contact_person" := VStr "Dana Reyes";
     "contact_email" := VStr "dana@acme.example";
     "phone_number" := VStr "+1 234 567 8900";
     "business_type" := VStr "Retail";
     "business_description" := VStr description;
     "status" := VStr "approved" ]}.

Definition long_description : string :=
  "Import and retail sale of household hardware.".

(** Nineteen characters. *)
Definition short_description : string := "Hardware retailing.".

Definition dana : Apply.User := {| Apply.id := "c2f1d6a0-7e3b-4b8c-9f6d-2a4e8b0c1d33" |}.

Definition signed_in : Apply.State := Apply.setUser (Some dana) Apply.initial.

(** A store that accepts every insert. *)
Definition accepting : gmap string JsVal → Apply.Awaited :=
  λ _, Apply.Fulfilled None.

End Sample.

(** ** What the verification page shows *)

Module View.

(** Truthiness, as [c ? a : b] and [c && x] test it. *)
Definition truthy (v : JsVal) : bool :=
  match v with
  | VBool b => b
  | VStr s => negb (bool_decide (s = ""))
  | VUndefined | VNull => false
  end.

(** The text React prints for [{v}]: a string as it is, nothing for
    [undefined], [null] and booleans. *)
Definition text (v : JsVal) : string :=
  match v with
  | VStr s => s
  | _ => ""
  end.

(** The text of the result block under the form, element by element in
    document order; nothing is rendered while the result is [null]. *)
Definition result_panel (verificationResult : option (gmap string JsVal)) : list string :=
  match verificationResult with
  | None => []
  | Some r =>
      (if truthy (get r "isValid")
       then ["License Verified"; "This license is valid and authentic"]
       else ["Invalid License"; "This license could not be verified"])
      ++
      (if truthy (get r "isValid")
       then [ "License Number"; text (get r "licenseNumber");
              "Status"; text (get r "status");
              "Business Name"; text (get r "businessName");
              "License Type"; text (get r "licenseType");
              "Issue Date"; text (get r "issueDate");
              "Expiry Date"; text (get r "expiryDate");
              "Blockchain Hash"; text (get r "blockchainHash") ]
       else [])
  end.

(** The submit button: [disabled={loading}] and its label. *)
Definition submit_button (s : Verify.State) : bool * string :=
  (Verify.loading s, if Verify.loading s then "Verifying..." else "Verify").

End View.

(** ** Roles, from the migrations *)

Module UserRoles.

(** [CREATE TYPE public.app_role AS ENUM ('admin', 'user')]. *)
Inductive app_role : Type := admin | user.

#[global] Instance app_role_eq_dec : EqDecision app_role.
Proof. solve_decision. Defined.

(** A row of [public.user_roles]. *)
Record Row : Type := {
  id : string;
  user_id : string;
  role : app_role;
  created_at : string
}.

(** [UNIQUE (user_id, role)]. *)
Definition unique_user_role (table : list Row) : Prop :=
  NoDup ((λ r, (user_id r, role r)) <$> table).

(** [public.has_role(_user_id, _role)]: whether some row of the table
    has that user and that role. The function is [SECURITY DEFINER], so
    it reads the whole table; a [NULL] user matches no row. *)
Definition has_role (table : list Row) (_user_id : option string) (_role : app_role) : bool :=
  existsb (λ r, bool_decide (Some (user_id r) = _user_id ∧ role r = _role)) table.

End UserRoles.

(** ** Row-level security

    Every table of the migrations has row-level security enabled and only
    permissive policies: a command may read or touch an existing row when
    the [USING] expression of some policy for that command holds on it,
    and may write a new row when the [WITH CHECK] expression of some
    policy for that command holds on it, a policy without [WITH CHECK]
    checking its [USING] expression instead. Without any policy for a
    command, the command is denied. No policy names a role, so each
    applies to every caller; roles that bypass row-level security are
    outside this model. *)

Module RLS.

(** Who asks: [auth.uid()], [NULL] for an anonymous caller, and the
    [user_roles] table that [has_role] consults. *)
Record Context : Type := {
  uid : option string;
  roles : list UserRoles.Row
}.

(** [auth.uid() = x] for a non-null [x]; with a [NULL] uid the comparison
    is [NULL], which no policy accepts. *)
Definition uid_is (ctx : Context) (x : string) : bool :=
  bool_decide (uid ctx = Some x).

(** [public.has_role(auth.uid(), 'admin')]. *)
Definition is_admin (ctx : Context) : bool :=
  UserRoles.has_role (roles ctx) (uid ctx) UserRoles.admin.

Inductive Command : Type := SELECT | INSERT | UPDATE | DELETE.

#[global] Instance Command_eq_dec : EqDecision Command.
Proof. solve_decision. Defined.

(** [FOR ALL] or [FOR] one command. *)
Inductive Target : Type := ALL | ONLY (c : Command).

Record Policy (Row : Type) : Type := {
  policy_name : string;
  target : Target;
  USING : option (Context → Row → bool);
  WITH_CHECK : option (Context → Row → bool)
}.

Arguments policy_name {Row} _.
Arguments target {Row} _.
Arguments USING {Row} _.
Arguments WITH_CHECK {Row} _.

Definition applies {Row} (p : Policy Row) (c : Command) : bool :=
  match target p with
  | ALL => true
  | ONLY c' => bool_decide (c' = c)
  end.

Definition using_holds {Row} (p : Policy Row) (ctx : Context) (r : Row) : bool :=
  match USING p with
  | Some e => e ctx r
  | None => true
  end.

Definition check_holds {Row} (p : Policy Row) (ctx : Context) (r : Row) : bool :=
  match WITH_CHECK p with
  | Some e => e ctx r
  | None => using_holds p ctx r
  end.



(** May command [c] read or touch the existing row [r]? *)
Definition permits_existing {Row} (policies : list (Policy Row))
    (ctx : Context) (c : Command) (r : Row) : bool :=
  existsb (λ p, applies p c && using_holds p ctx r) policies.

(** May command [c] write the new row [r]? *)
Definition permits_new {Row} (policies : list (Policy Row))
    (ctx : Context) (c : Command) (r : Row) : bool :=
  existsb (λ p, applies p c && check_holds p ctx r) policies.

(** [CREATE POLICY] and [DROP POLICY IF EXISTS] on a table's policies. *)
Definition create_policy {Row} (p : Policy Row) (policies : list (Policy Row))
    : list (Policy Row) :=
  policies ++ [p].

Definition drop_policy_if_exists {Row} (name : string) (policies : list (Policy Row))
    : list (Policy Row) :=
  filter (λ p, policy_name p ≠ name) policies.

End RLS.

(** ** [public.profiles] and the new-user trigger *)

Module Profiles.

Import RLS.

Record Row : Type := {
  id : string;
  email : string;
  first_name : option string;
  last_name : option string;
  business_name : option string;
  created_at : string;
  updated_at : string
}.

Definition policies : list (Policy Row) :=
  [ {| policy_name := "Users can view their own profile";
       target := ONLY SELECT;
       USING := Some (λ ctx r, uid_is ctx (id r));
       WITH_CHECK := None |};
    {| policy_name := "Users can update their own profile";
       target := ONLY UPDATE;
       USING := Some (λ ctx r, uid_is ctx (id r));
       WITH_CHECK := None |};
    {| policy_name := "Admins can view all profiles";
       target := ONLY SELECT;
       USING := Some (λ ctx _, is_admin ctx);
       WITH_CHECK := None |} ].

(** The columns of a new [auth.users] row that the trigger reads. *)
Record AuthUser : Type := {
  new_id : string;
  new_email : option string;
  raw_user_meta_data : gmap string JsVal
}.

(** [json ->> 'key']: the member as text, [NULL] when it is absent or
    JSON [null]. *)
Definition json_text (o : gmap string JsVal) (k : string) : option string :=
  match o !! k with
  | Some (VStr s) => Some s
  | Some (VBool b) => Some (if b then "true" else "false")
  | Some VNull | Some VUndefined | None => None
  end.

(** [public.handle_new_user()], fired after an insert on [auth.users]:
    one profile row and one ['user'] role row. [now] is [NOW()] and
    [uuid] the generated key of the role row. [None] is a raised error:
    a [NULL] email against [email TEXT NOT NULL], or a key that exists. *)
Definition handle_new_user (now uuid : string) (NEW : AuthUser)
    (profiles : list Row) (user_roles : list UserRoles.Row)
    : option (list Row * list UserRoles.Row) :=
  match new_email NEW with
  | None => None
  | Some e =>
      if bool_decide (new_id NEW ∈ (id <$> profiles)) then None
      else if bool_decide (uuid ∈ (UserRoles.id <$> user_roles)) then None
      else if bool_decide ((new_id NEW, UserRoles.user)
                           ∈ ((λ r, (UserRoles.user_id r, UserRoles.role r)) <$> user_roles))
      then None
      else
        Some (profiles ++ [ {| id := new_id NEW;
                               email := e;
                               first_name := json_text (raw_user_meta_data NEW) "first_name";
                               last_name := json_text (raw_user_meta_data NEW) "last_name";
                               business_name := json_text (raw_user_meta_data NEW) "business_name";
                               created_at := now;
                               updated_at := now |} ],
              user_roles ++ [ {| UserRoles.id := uuid;
                                 UserRoles.user_id := new_id NEW;
                                 UserRoles.role := UserRoles.user;
                                 UserRoles.created_at := now |} ])
  end.

End Profiles.

(** ** Policies on [public.user_roles] *)

Module RolePolicies.

Import RLS.

Definition policies : list (Policy UserRoles.Row) :=
  [ {| policy_name := "Users can view their own roles";
       target := ONLY SELECT;
       USING := Some (λ ctx r, uid_is ctx (UserRoles.user_id r));
       WITH_CHECK := None |};
    {| policy_name := "Admins can view all roles";
       target := ONLY SELECT;
       USING := Some (λ ctx _, is_admin ctx);
       WITH_CHECK := None |};
    {| policy_name := "Admins can manage roles";
       target := ALL;
       USING := Some (λ ctx _, is_admin ctx);
       WITH_CHECK := None |} ].

End RolePolicies.

(** ** Policies on [public.licenses], migration by migration *)

Module LicensePolicies.

Import RLS.

(** The policies the first migration creates. *)
Definition first_migration : list (Policy Licenses.Row) :=
  create_policy
    {| policy_name := "Anyone can verify licenses by license_number";
       target := ONLY SELECT;
       USING := Some (λ _ _, true);
       WITH_CHECK := None |}
    (create_policy
       {| policy_name := "Admins can manage all licenses";
          target := ALL;
          USING := Some (λ ctx _, is_admin ctx);
          WITH_CHECK := None |}
       (create_policy
          {| policy_name := "Users can view their own licenses";
             target := ONLY SELECT;
             USING := Some (λ ctx r, uid_is ctx (Licenses.user_id r));
             WITH_CHECK := None |}
          [])).

(** The second migration drops the public policy and creates its
    replacement. *)
Definition second_migration (policies : list (Policy Licenses.Row))
    : list (Policy Licenses.Row) :=
  create_policy
    {| policy_name := "Public can verify basic license info";
       target := ONLY SELECT;
       USING := Some (λ _ r, Licenses.public_can_verify r);
       WITH_CHECK := None |}
    (drop_policy_if_exists "Anyone can verify licenses by license_number" policies).

Definition policies : list (Policy Licenses.Row) :=
  second_migration first_migration.

End LicensePolicies.

(** ** [public.license_applications] *)

Module Applications.

Import RLS.

Record Row : Type := {
  id : string;
  user_id : string;
  license_type : string;
  business_name : string;
  registration_number : string;
  business_address : string;
  contact_person : string;
  contact_email : string;
  phone_number : string;
  business_type : string;
  business_description : string;
  status : string;
  submitted_at : string;
  reviewed_at : option string;
  reviewed_by : option string;
  rejection_reason : option string;
  created_at : string;
  updated_at : string
}.

(** [CHECK (status IN ('pending', 'in_review', 'approved', 'rejected'))]. *)
Definition status_check (r : Row) : bool :=
  bool_decide (status r ∈ ["pending"; "in_review"; "approved"; "rejected"]).

Definition policies : list (Policy Row) :=
  [ {| policy_name := "Users can view their own applications";
       target := ONLY SELECT;
       USING := Some (λ ctx r, uid_is ctx (user_id r));
       WITH_CHECK := None |};
    {| policy_name := "Users can insert their own applications";
       target := ONLY INSERT;
       USING := None;
       WITH_CHECK := Some (λ ctx r, uid_is ctx (user_id r)) |};
    {| policy_name := "Admins can view all applications";
       target := ONLY SELECT;
       USING := Some (λ ctx _, is_admin ctx);
       WITH_CHECK := None |};
    {| policy_name := "Admins can update all applications";
       target := ONLY UPDATE;
       USING := Some (λ ctx _, is_admin ctx);
       WITH_CHECK := None |} ].

(** The columns an insert from the application page supplies; [status]
    may be left to its default. *)
Record NewRow : Type := {
  new_user_id : string;
  new_license_type : string;
  new_business_name : string;
  new_registration_number : string;
  new_business_address : string;
  new_contact_person : string;
  new_contact_email : string;
  new_phone_number : string;
  new_business_type : string;
  new_business_description : string;
  new_status : option string
}.

(** The row an insert proposes: the supplied columns, [DEFAULT 'pending'],
    [DEFAULT NOW()], a generated key, and [NULL] review columns. *)
Definition proposed (now uuid : string) (n : NewRow) : Row :=
  {| id := uuid;
     user_id := new_user_id n;
     license_type := new_license_type n;
     business_name := new_business_name n;
     registration_number := new_registration_number n;
     business_address := new_business_address n;
     contact_person := new_contact_person n;
     contact_email := new_contact_email n;
     phone_number := new_phone_number n;
     business_type := new_business_type n;
     business_description := new_business_description n;
     status := default "pending" (new_status n);
     submitted_at := now;
     reviewed_at := None;
     reviewed_by := None;
     rejection_reason := None;
     created_at := now;
     updated_at := now |}.

Inductive Outcome : Type :=
| Inserted (r : Row)
| RowSecurityViolation
| CheckViolation
| UniqueViolation
| ForeignKeyViolation.

(** An insert by the principal of [ctx] into [table]: the policy check
    on the new row, then the [CHECK] constraint, then the primary key,
    then the reference to [auth.users], whose ids are [auth_users]. On
    [Inserted r] the table becomes [table ++ [r]]. *)
Definition insert (ctx : Context) (auth_users : list string) (table : list Row)
    (now uuid : string) (n : NewRow) : Outcome :=
  let r := proposed now uuid n in
  if negb (permits_new policies ctx INSERT r) then RowSecurityViolation
  else if negb (status_check r) then CheckViolation
  else if bool_decide (id r ∈ (id <$> table)) then UniqueViolation
  else if negb (bool_decide (user_id r ∈ auth_users)) then ForeignKeyViolation
  else Inserted r.

(** The JSON body of an insert read as columns. Only bodies whose
    members are all strings are read; [status] may be absent. *)
Definition of_payload (p : gmap string JsVal) : option NewRow :=
  let text k := match p !! k with Some (VStr s) => Some s | _ => None end in
  u ← text "user_id";
  lt ← text "license_type";
  bn ← text "business_name";
  rn ← text "registration_number";
  ba ← text "business_address";
  cp ← text "contact_person";
  ce ← text "contact_email";
  pn ← text "phone_number";
  bt ← text "business_type";
  bd ← text "business_description";
  st ← match p !! "status" with
       | None => Some None
       | Some (VStr s) => Some (Some s)
       | Some _ => None
       end;
  Some {| new_user_id := u; new_license_type := lt; new_business_name := bn;
          new_registration_number := rn; new_business_address := ba;
          new_contact_person := cp; new_contact_email := ce;
          new_phone_number := pn; new_business_type := bt;
          new_business_description := bd; new_status := st |}.

End Applications.

(** ** More sample data for closed examples *)

Module Cases.

(** The sample license issued without end: the store serves the
    [timestamptz] value [infinity] as the string ["infinity"], which is
    not a date to [new Date]. *)
Definition acme_no_expiry : Licenses.Row :=
  {| Licenses.id := Licenses.id Sample.acme;
     Licenses.application_id := Licenses.application_id Sample.acme;
     Licenses.user_id := Licenses.user_id Sample.acme;
     Licenses.license_number := Licenses.license_number Sample.acme;
     Licenses.license_type := Licenses.license_type Sample.acme;
     Licenses.business_name := Licenses.business_name Sample.acme;
     Licenses.issue_date := Licenses.issue_date Sample.acme;
     Licenses.expiry_date := "infinity";
     Licenses.status := Licenses.status Sample.acme;
     Licenses.blockchain_hash := Licenses.blockchain_hash Sample.acme;
     Licenses.created_at := Licenses.created_at Sample.acme;
     Licenses.updated_at := Licenses.updated_at Sample.acme |}.

Definition dana_id : string := "c2f1d6a0-7e3b-4b8c-9f6d-2a4e8b0c1d33".

Definition root_id : string := "00000000-0000-4000-8000-00000000000a".

Definition role_rows : list UserRoles.Row :=
  [ {| UserRoles.id := "11111111-0000-4000-8000-000000000001";
       UserRoles.user_id := root_id;
       UserRoles.role := UserRoles.admin;
       UserRoles.created_at := "2024-01-01T00:00:00+00:00" |};
    {| UserRoles.id := "11111111-0000-4000-8000-000000000002";
       UserRoles.user_id := dana_id;
       UserRoles.role := UserRoles.user;
       UserRoles.created_at := "2024-01-02T00:00:00+00:00" |} ].

Definition anonymous : RLS.Context :=
  {| RLS.uid := None; RLS.roles := role_rows |}.

Definition as_dana : RLS.Context :=
  {| RLS.uid := Some dana_id; RLS.roles := role_rows |}.

Definition dana_profile : Profiles.Row :=
  {| Profiles.id := dana_id;
     Profiles.email := "dana@acme.example";
     Profiles.first_name := Some "Dana";
     Profiles.last_name := Some "Reyes";
     Profiles.business_name := Some "Acme Trading";
     Profiles.created_at := "2024-01-02T00:00:00+00:00";
     Profiles.updated_at := "2024-01-02T00:00:00+00:00" |}.

(** A new identity that signed up with a first name only. *)
Definition lee : Profiles.AuthUser :=
  {| Profiles.new_id := "22222222-0000-4000-8000-000000000007";
     Profiles.new_email := Some "lee@example.org";
     Profiles.raw_user_meta_data := {[ "first_name" := VStr "Lee" ]} |}.

Definition as_root : RLS.Context :=
  {| RLS.uid := Some root_id; RLS.roles := role_rows |}.

(** The columns of the sample form as Dana submits it. *)
Definition dana_new_row : Applications.NewRow :=
  {| Applications.new_user_id := dana_id;
     Applications.new_license_type := "Business License";
     Applications.new_business_name := "Acme Trading";
     Applications.new_registration_number := "REG-778899";
     Applications.new_business_address := "12 Harbour Road, Springfield";
     Applications.new_contact_person := "Dana Reyes";
     Applications.new_contact_email := "dana@acme.example";
     Applications.new_phone_number := "+1 234 567 8900";
     Applications.new_business_type := "Retail";
     Applications.new_business_description := Sample.long_description;
     Applications.new_status := Some "pending" |}.

Definition dana_application : Applications.Row :=
  Applications.proposed "2024-03-01T09:00:00+00:00"
    "33333333-0000-4000-8000-000000000001" dana_new_row.

(** The sample form without its phone number. *)
Definition form_without_phone : gmap string JsVal :=
  delete "phone_number" (Sample.form_values Sample.long_description).

End Cases.

(** * Properties of the verification page *)

Section VerifyFacts.

Import Licenses Verify.

Variable Date_parse : string → Date.time_value.
Variable toLocaleDateString : Date.time_value → string.

#[local] Abbreviation found_result := (found_result Date_parse toLocaleDateString).
#[local] Abbreviation handleVerify := (handleVerify Date_parse toLocaleDateString).
#[local] Abbreviation handleVerify_resume := (handleVerify_resume Date_parse toLocaleDateString).

(** A fulfilled query with a row and no error displays [found_result]. *)
Lemma handleVerify_found now store s d :
  store (licenseId s) = Fulfilled {| data := Some d; error := None |} →
  verificationResult (handleVerify now store s) = Some (found_result now d).
Proof. intros Hq. unfold Verify.handleVerify. rewrite Hq. reflexivity. Qed.

(** Rows kept by the filter carry the queried number. *)
Lemma eq_license_number_spec number table r :
  r ∈ eq_license_number number table ↔ r ∈ table ∧ license_number r = number.
Proof.
  unfold eq_license_number. rewrite list_elem_of_filter.
  unfold public_can_verify. tauto.
Qed.

Lemma verify_query_data number table d :
  data (verify_query table number) = Some d →
  ∃ r, r ∈ table ∧ license_number r = number ∧ d = select r.
Proof.
  unfold verify_query.
  destruct (eq_license_number number table) as [|r [|r' rows]] eqn:E;
    simpl; intros H; try discriminate.
  injection H as <-. exists r. 
  assert (Hin : r ∈ eq_license_number number table) by (rewrite E; left).
  apply eq_license_number_spec in Hin as [? ?]. done.
Qed.

Lemma verify_query_none number table :
  (∀ r, r ∈ table → license_number r ≠ number) →
  verify_query table number = {| data := None; error := None |}.
Proof.
  intros Hno. unfold verify_query.
  destruct (eq_license_number number table) as [|r rows] eqn:E; [done|].
  assert (Hin : r ∈ eq_license_number number table) by (rewrite E; left).
  apply eq_license_number_spec in Hin as [Hin Heq].
  by destruct (Hno r Hin).
Qed.

(** Under the [UNIQUE] constraint at most one row carries a number, so
    [maybeSingle] never reports several rows. *)
Lemma unique_number_at_most_one number table :
  unique_license_number table →
  (length (eq_license_number number table) ≤ 1)%nat.
Proof.
  unfold unique_license_number, eq_license_number.
  induction table as [|r table IH]; [simpl; lia|].
  rewrite fmap_cons, NoDup_cons. intros [Hfresh Hrest].
  rewrite filter_cons. case_decide as Hr; [|by apply IH].
  destruct Hr as [_ Hr].
  destruct (filter _ table) as [|r' rows] eqn:E; [simpl; lia|].
  exfalso. apply Hfresh.
  assert (Hin : r' ∈ eq_license_number number table)
    by (unfold eq_license_number; rewrite E; left).
  apply eq_license_number_spec in Hin as [Hin Hnum].
  rewrite Hr, <- Hnum. by apply list_elem_of_fmap_2.
Qed.

Lemma unique_number_no_error number table :
  unique_license_number table → error (verify_query table number) = None.
Proof.
  intros Hlen%(unique_number_at_most_one number). unfold verify_query.
  destruct (eq_license_number number table) as [|r [|r' rows]];
    [done|done|simpl in Hlen; lia].
Qed.

(** The query commutes with the projection onto the selected columns. *)
Lemma select_eq_license_number number table :
  select <$> eq_license_number number table
  = filter (λ d, sel_license_number d = number) (select <$> table).
Proof.
  unfold eq_license_number.
  induction table as [|r table IH]; [done|].
  rewrite fmap_cons, !filter_cons, <- IH. simpl.
  repeat case_decide; first [done | exfalso; unfold public_can_verify in *; tauto].
Qed.

(** Whatever the store answers, a displayed result is one of the two
    object literals. *)
Lemma handleVerify_result_cases now store s res :
  verificationResult (handleVerify now store s) = Some res →
  (store (licenseId s) = Fulfilled {| data := None; error := None |}
   ∧ res = not_found_result (licenseId s))
  ∨ (∃ d, store (licenseId s) = Fulfilled {| data := Some d; error := None |}
          ∧ res = found_result now d).
Proof.
  unfold Verify.handleVerify.
  destruct (store (licenseId s)) as [[[d|] [e|]]|reason]; simpl;
    intros H; simplify_eq; eauto.
Qed.

Lemma dom_found_result now d :
  dom (found_result now d)
  = {[ "isValid"; "licenseNumber"; "businessName"; "licenseType";
       "issueDate"; "expiryDate"; "status"; "blockchainHash" ]}.
Proof.
  unfold Verify.found_result. rewrite !dom_insert_L, dom_singleton_L. set_solver.
Qed.

Lemma dom_not_found_result number :
  dom (not_found_result number) = {[ "isValid"; "licenseNumber" ]}.
Proof.
  unfold not_found_result. rewrite dom_insert_L, dom_singleton_L. set_solver.
Qed.

(** *** Validity and displayed status *)

(** C1, as the code has it: for a matched row the flag [isValid] is a
    boolean, and it is [true] exactly when the stored status is
    ['active'] and the expiry date is not earlier than the current time
    (the instant of expiry itself still counts as valid). A status
    ['suspended'] or ['revoked'] gives [false] whatever the expiry date,
    and an ['active'] license whose expiry lies in the future gives
    [true]. *)
Theorem validity_active_and_not_expired now store s d :
  store (licenseId s) = Fulfilled {| data := Some d; error := None |} →
  ∃ res b,
    verificationResult (handleVerify now store s) = Some res ∧
    res !! "isValid" = Some (VBool b) ∧
    (∀ t, Date_parse (sel_expiry_date d) = Some t →
          (b = true ↔ sel_status d = "active" ∧ (now ≤ t)%Z)) ∧
    (sel_status d = "suspended" ∨ sel_status d = "revoked" → b = false) ∧
    (∀ t, Date_parse (sel_expiry_date d) = Some t →
          sel_status d = "active" → (now < t)%Z → b = true).
Proof.
  intros Hq. eexists _, _. split; [by apply handleVerify_found|].
  split; [reflexivity|]. split; [|split].
  - intros t Ht. rewrite Ht. simpl.
    rewrite andb_true_iff, negb_true_iff, Z.ltb_ge, bool_decide_eq_true. tauto.
  - intros [Hs|Hs]; rewrite Hs; rewrite bool_decide_eq_false_2 by done;
      apply andb_false_r.
  - intros t Ht Hs Hlt. rewrite Ht, Hs. simpl.
    rewrite andb_true_iff, negb_true_iff, Z.ltb_ge. split; [lia|done].
Qed.

(** C2: for a matched row whose expiry date is earlier than the lookup
    time, the result's [status] is the string ['Expired'] in place of the
    stored one and [isValid] is [false]; for a matched row whose expiry
    date is not earlier, [status] is the stored string unchanged. *)
Theorem expired_overrides_stored_status now store s d t :
  store (licenseId s) = Fulfilled {| data := Some d; error := None |} →
  Date_parse (sel_expiry_date d) = Some t →
  ∃ res,
    verificationResult (handleVerify now store s) = Some res ∧
    ((t < now)%Z →
       res !! "status" = Some (VStr "Expired") ∧
       res !! "isValid" = Some (VBool false)) ∧
    ((now ≤ t)%Z → res !! "status" = Some (VStr (sel_status d))).
Proof.
  intros Hq Ht. eexists. split; [by apply handleVerify_found|].
  assert (Hstatus : ∀ d', found_result now d' !! "status"
      = Some (VStr (if Date.lt (Date_parse (sel_expiry_date d')) (Some now)
                    then "Expired" else sel_status d'))) by reflexivity.
  assert (Hvalid : ∀ d', found_result now d' !! "isValid"
      = Some (VBool (negb (Date.lt (Date_parse (sel_expiry_date d')) (Some now))
                     && bool_decide (sel_status d' = "active")))) by reflexivity.
  rewrite Hstatus, Hvalid, Ht. simpl. split.
  - intros Hlt. apply Z.ltb_lt in Hlt. by rewrite Hlt.
  - intros Hle. apply Z.ltb_ge in Hle. by rewrite Hle.
Qed.


(** *** The no-match answer *)

(** C3: when no row carries the queried number, the page ends in a state
    fixed by the query alone: the result is the object with exactly the
    two properties [isValid = false] and [licenseNumber], the latter being
    the queried string, no toast is raised and nothing is logged. Nothing
    in it depends on the shape of the number, so a malformed number and a
    well-formed unknown one are answered alike. *)
Theorem no_match_uniform_answer now table s :
  (∀ r, r ∈ table → license_number r ≠ licenseId s) →
  handleVerify now (supabase table) s
  = {| licenseId := licenseId s;
       verificationResult :=
         Some {[ "isValid" := VBool false; "licenseNumber" := VStr (licenseId s) ]};
       loading := false;
       toasts := toasts s;
       console := console s |}
  ∧ dom (not_found_result (licenseId s)) = {[ "isValid"; "licenseNumber" ]}.
Proof.
  intros Hno. split; [|apply dom_not_found_result].
  unfold Verify.handleVerify, supabase.
  by rewrite (verify_query_none _ _ Hno).
Qed.

(** *** Private columns *)

(** C4: the query reads the seven selected columns only, so two stores
    whose tables agree on those columns row by row, whatever their [id],
    [user_id], [application_id] and timestamps, leave the page in the same
    state for every input; and a displayed result has no property beyond
    the eight of the result literal, none of which is an internal id, an
    owner or an application reference. *)
Theorem verification_independent_of_private_columns now table1 table2 s :
  select <$> table1 = select <$> table2 →
  handleVerify now (supabase table1) s = handleVerify now (supabase table2) s
  ∧ ∀ res, verificationResult (handleVerify now (supabase table1) s) = Some res →
      dom res ⊆ {[ "isValid"; "licenseNumber"; "businessName"; "licenseType";
                   "issueDate"; "expiryDate"; "status"; "blockchainHash" ]}
      ∧ res !! "id" = None ∧ res !! "user_id" = None
      ∧ res !! "application_id" = None.
Proof.
  intros Hpub. split.
  - unfold Verify.handleVerify, supabase, verify_query.
    by rewrite !select_eq_license_number, Hpub.
  - intros res Hres.
    apply handleVerify_result_cases in Hres as [[_ ->]|(d & _ & ->)].
    + rewrite dom_not_found_result. split; [|done].
      apply elem_of_subseteq. intros k.
      rewrite !elem_of_union, !elem_of_singleton. tauto.
    + rewrite dom_found_result. done.
Qed.

(** *** The integrity hash *)

(** C8: for a matched row whose [blockchain_hash] is [null] or the empty
    string the result's [blockchainHash] is ['N/A']; the results for a
    row with a [null] hash and for the same row with an empty hash are
    equal. *)
Theorem missing_hash_shown_as_sentinel now store s d :
  store (licenseId s) = Fulfilled {| data := Some d; error := None |} →
  sel_blockchain_hash d = None ∨ sel_blockchain_hash d = Some "" →
  (∃ res,
     verificationResult (handleVerify now store s) = Some res ∧
     res !! "blockchainHash" = Some (VStr "N/A"))
  ∧ ∀ r, found_result now (select (with_hash None r))
         = found_result now (select (with_hash (Some "") r)).
Proof.
  intros Hq Hh. split; [|reflexivity].
  eexists. split; [by apply handleVerify_found|].
  assert (Hhash : found_result now d !! "blockchainHash"
                  = Some (VStr (or_else (sel_blockchain_hash d) "N/A")))
    by reflexivity.
  rewrite Hhash. by destruct Hh as [-> | ->].
Qed.

(** *** The echoed number *)

(** C9: against a store that answers the query, whenever a result is
    displayed, match or no match, its [licenseNumber] is the queried
    string: the filter keeps only rows whose [license_number] equals it. *)
Theorem result_echoes_queried_number now table s res :
  verificationResult (handleVerify now (supabase table) s) = Some res →
  res !! "licenseNumber" = Some (VStr (licenseId s)).
Proof.
  intros Hres.
  apply handleVerify_result_cases in Hres as [[_ ->]|(d & Hq & ->)];
    [reflexivity|].
  unfold supabase in Hq. assert (Hd : data (verify_query table (licenseId s)) = Some d)
    by (injection Hq as ->; reflexivity).
  destruct (verify_query_data _ _ _ Hd) as (r & _ & Hnum & ->).
  assert (Hnumber : ∀ d', found_result now d' !! "licenseNumber"
                          = Some (VStr (sel_license_number d')))
    by reflexivity.
  rewrite Hnumber. simpl. by rewrite Hnum.
Qed.

(** *** Clearing the previous result *)

(** C10: every run of the handler first sets the result to [null] and
    only then queries, resuming from that cleared state; when the store
    answers with an error, or the query throws, the result is still
    [null] at the end, an error toast has been raised, and [loading] is
    off. *)
Theorem attempt_clears_previous_result now store s :
  verificationResult (handleVerify_begin s) = None
  ∧ handleVerify now store s
    = handleVerify_resume now (licenseId s) (store (licenseId s))
        (handleVerify_begin s)
  ∧ (∀ r e, store (licenseId s) = Fulfilled r → error r = Some e →
       verificationResult (handleVerify now store s) = None
       ∧ loading (handleVerify now store s) = false
       ∧ toasts (handleVerify now store s)
         = toasts s ++ [{| title := "Error";
                           description := "Failed to verify license. Please try again.";
                           variant := Some "destructive" |}])
  ∧ (∀ reason, store (licenseId s) = Thrown reason →
       verificationResult (handleVerify now store s) = None).
Proof.
  split; [reflexivity|]. split; [reflexivity|]. split.
  - intros r e Hq He. unfold Verify.handleVerify. rewrite Hq. simpl.
    by rewrite He.
  - intros reason Hq. unfold Verify.handleVerify. by rewrite Hq.
Qed.

End VerifyFacts.

(** * Properties of the application page *)

Section ApplyFacts.

Import Zod Apply.

Variable emailRegex : string → bool.

#[local] Abbreviation handleSubmit := (handleSubmit emailRegex).
#[local] Abbreviation object_issues := (object_issues emailRegex).
#[local] Abbreviation string_issues := (string_issues emailRegex).

(** The resolver's fold keeps what is already recorded for a field and
    otherwise records the first message met. *)
Lemma toFieldErrors_fold issues (acc : gmap string string) k :
  fold_left
    (λ errors i,
       match errors !! path i with
       | Some _ => errors
       | None => <[path i := issue_message i]> errors
       end)
    issues acc !! k
  = match acc !! k with
    | Some m => Some m
    | None => first_message k issues
    end.
Proof.
  revert acc. induction issues as [|i issues IH]; intros acc; simpl.
  - unfold first_message. simpl. by destruct (acc !! k).
  - rewrite IH. unfold first_message. rewrite filter_cons.
    destruct (acc !! path i) as [m|] eqn:Hi.
    + destruct (decide (path i = k)) as [<-|Hne]; [by rewrite Hi|done].
    + destruct (decide (path i = k)) as [<-|Hne].
      * by rewrite lookup_insert_eq, Hi.
      * by rewrite lookup_insert_ne by done.
Qed.

Lemma toFieldErrors_lookup issues k :
  toFieldErrors issues !! k = first_message k issues.
Proof. unfold toFieldErrors. by rewrite toFieldErrors_fold, lookup_empty. Qed.

Lemma object_issues_cons k checks shape input :
  object_issues ((k, checks) :: shape) input
  = ((λ m, {| path := k; issue_message := m |})
       <$> string_issues checks (get input k))
    ++ object_issues shape input.
Proof. reflexivity. Qed.

(** Issues filed under another field do not decide the message of [k]. *)
Lemma first_message_other k k' (msgs : list string) rest :
  k' ≠ k →
  first_message k
    (((λ m, {| path := k'; issue_message := m |}) <$> msgs) ++ rest)
  = first_message k rest.
Proof.
  intros Hne. unfold first_message. rewrite filter_app.
  replace (filter (λ i, path i = k)
             ((λ m, {| path := k'; issue_message := m |}) <$> msgs))
    with (@nil ZodIssue); [done|].
  induction msgs as [|m msgs IH]; [done|].
  rewrite fmap_cons, filter_cons. simpl. by rewrite decide_False by done.
Qed.

(** What [onSubmit] sends is one payload built for the signed-in user. *)
Lemma onSubmit_inserts store data s :
  (onSubmit store data s).2
  = match user s with
    | None => []
    | Some u => [insert_payload u data]
    end.
Proof. unfold onSubmit. by destruct (user s). Qed.

(** Without a session neither auth callback sets the [user] state. *)
Lemma no_session_keeps_user s :
  user (checkAuth None s) = user s ∧ user (onAuthStateChange None s) = user s.
Proof. split; reflexivity. Qed.

Lemma handleSubmit_inserts store values s row :
  row ∈ (handleSubmit store values s).2 →
  ∃ u data, user s = Some u ∧ row = insert_payload u data.
Proof.
  unfold Apply.handleSubmit.
  destruct (safeParse emailRegex applicationSchema values) as [data|issues]; simpl.
  - rewrite onSubmit_inserts. simpl.
    destruct (user s) as [u|]; [|by intros ?%elem_of_nil].
    intros ->%list_elem_of_singleton. eauto.
  - by intros ?%elem_of_nil.
Qed.

(** The page's [user] is the user of the latest notice that carried a
    session; notices without a session leave it as it is. *)
Lemma user_page_after notices :
  user (Session.page_after notices) = Session.last_signed_in notices.
Proof.
  unfold Session.page_after, Session.last_signed_in.
  induction notices as [|n notices IH] using rev_ind; [done|].
  rewrite fold_left_app, omap_app. simpl.
  destruct n as [[u|]|[u|]]; simpl.
  - by rewrite last_snoc.
  - by rewrite app_nil_r.
  - by rewrite last_snoc.
  - by rewrite app_nil_r.
Qed.

(** C5, as the code has it: the guard is the page's [user]. Without one
    the handler raises the "Authentication Required" toast, navigates to
    the login page, and sends nothing to the store, also when reached
    through the form's submit handler; whatever is sent is sent for the
    page's user, and the payload's [user_id] is that user's id. The
    page's user is the user of the latest session reported to the page:
    a page that was never told of a session has none, and a later notice
    without a session does not clear it. *)
Theorem submission_requires_page_user store data s :
  (user s = None →
     onSubmit store data s
     = (navigate "/login" (toast authentication_required s), [])
     ∧ ∀ values, (handleSubmit store values s).2 = [])
  ∧ (∀ row, row ∈ (onSubmit store data s).2 →
       ∃ u, user s = Some u ∧ row !! "user_id" = Some (VStr (id u)))
  ∧ (∀ notices,
       user (Session.page_after notices) = Session.last_signed_in notices
       ∧ (Session.last_signed_in notices = None →
          (onSubmit store data (Session.page_after notices)).2 = [])
       ∧ (∀ u, Session.last_signed_in notices = Some u →
          (onSubmit store data (Session.page_after notices)).2
          = [insert_payload u data])).
Proof.
  split; [|split].
  - intros Hu. split; [unfold onSubmit; by rewrite Hu|].
    intros values. unfold Apply.handleSubmit.
    destruct (safeParse emailRegex applicationSchema values); [|done].
    rewrite onSubmit_inserts. simpl. by rewrite Hu.
  - intros row. rewrite onSubmit_inserts.
    destruct (user s) as [u|]; [|by intros ?%elem_of_nil].
    intros ->%list_elem_of_singleton. by exists u.
  - intros notices. split; [apply user_page_after|].
    rewrite onSubmit_inserts, user_page_after.
    split; [by intros ->|]. by intros u ->.
Qed.

(** C6: every payload the submission sends to [license_applications]
    has [status] ['pending'], whatever the submitted values hold,
    a [status] of their own included. *)
Theorem inserted_status_is_pending store values s row :
  row ∈ (handleSubmit store values s).2 →
  row !! "status" = Some (VStr "pending").
Proof.
  intros (u & data & _ & ->)%handleSubmit_inserts. reflexivity.
Qed.


End ApplyFacts.

(** * Closed examples

    The properties above, run on the sample store with timestamps read
    by [Date.iso_parse] and rendered by [Date.utc_long_date]. *)

Section Examples.

Import Licenses Verify Sample.

#[local] Abbreviation run := (handleVerify Date.iso_parse Date.utc_long_date).

(** The sample table satisfies the constraints of the schema. *)
Example sample_table_well_formed :
  unique_license_number [acme] ∧ status_check acme = true.
Proof. split; [|reflexivity]. apply NoDup_singleton. Qed.

(** A lookup of the sample license a year before it expires. *)
Example acme_lookup :
  run 1704067200000 (supabase [acme]) (typed "LIC-2024-00001")
  = {| licenseId := "LIC-2024-00001";
       verificationResult :=
         Some {[ "isValid" := VBool true;
                 "licenseNumber" := VStr "LIC-2024-00001";
                 "businessName" := VStr "Acme Trading";
                 "licenseType" := VStr "Business License";
                 "issueDate" := VStr "January 1, 2024";
                 "expiryDate" := VStr "January 1, 2025";
                 "status" := VStr "active";
                 "blockchainHash" := VStr "0x9f2c41" ]};
       loading := false;
       toasts := [];
       console := [] |}.
Proof. reflexivity. Qed.

(** A suspended license is not valid even long before its expiry. *)
Example suspended_lookup :
  ∃ res,
    verificationResult
      (run 1704067200000 (supabase [with_status "suspended" acme])
         (typed "LIC-2024-00001"))
    = Some res
    ∧ res !! "isValid" = Some (VBool false)
    ∧ res !! "status" = Some (VStr "suspended").
Proof. eexists. repeat split; reflexivity. Qed.

(** Two rows under one number, which the schema forbids, are an error. *)
Example duplicate_number_lookup :
  verify_query [acme; acme_other_owner] "LIC-2024-00001"
  = {| data := None; error := Some PGRST116 |}.
Proof. reflexivity. Qed.

(** At the very instant of expiry an active license is still reported
    valid, so validity is not "active and now strictly before expiry". *)
Lemma valid_at_the_instant_of_expiry :
  let now := new_year_2025 in
  let s := typed "LIC-2024-00001" in
  supabase [acme] (licenseId s)
    = Fulfilled {| data := Some (select acme); error := None |}
  ∧ Date.iso_parse (expiry_date acme) = Some new_year_2025
  ∧ ∃ res,
      verificationResult (run now (supabase [acme]) s) = Some res
      ∧ res !! "isValid" = Some (VBool true)
      ∧ ¬ (res !! "isValid" = Some (VBool true)
           ↔ status acme = "active" ∧ (now < new_year_2025)%Z).
Proof.
  simpl. split; [reflexivity|]. split; [reflexivity|].
  eexists. split; [reflexivity|]. split; [reflexivity|].
  intros [Hvalid _]. destruct (Hvalid eq_refl) as [_ Hlt].
  unfold new_year_2025 in Hlt. lia.
Qed.

Lemma validity_example :
  supabase [acme] "LIC-2024-00001"
    = Fulfilled {| data := Some (select acme); error := None |}
  ∧ ∃ res,
      verificationResult
        (run 1704067200000 (supabase [acme]) (typed "LIC-2024-00001"))
      = Some res
      ∧ res !! "isValid" = Some (VBool true).
Proof.
  split; [reflexivity|].
  destruct (validity_active_and_not_expired Date.iso_parse Date.utc_long_date
              1704067200000 (supabase [acme]) (typed "LIC-2024-00001")
              (select acme) eq_refl)
    as (res & b & Hres & Hb & _ & _ & Hfuture).
  exists res. split; [exact Hres|].
  rewrite Hb. by rewrite (Hfuture new_year_2025 eq_refl eq_refl eq_refl).
Defined.

Lemma expired_example :
  supabase [acme] "LIC-2024-00001"
    = Fulfilled {| data := Some (select acme); error := None |}
  ∧ Date.iso_parse (expiry_date acme) = Some new_year_2025
  ∧ ∃ res,
      verificationResult
        (run (new_year_2025 + 1) (supabase [acme]) (typed "LIC-2024-00001"))
      = Some res
      ∧ res !! "status" = Some (VStr "Expired")
      ∧ res !! "isValid" = Some (VBool false).
Proof.
  split; [reflexivity|]. split; [reflexivity|].
  destruct (expired_overrides_stored_status Date.iso_parse Date.utc_long_date
              (new_year_2025 + 1) (supabase [acme]) (typed "LIC-2024-00001")
              (select acme) new_year_2025 eq_refl eq_refl)
    as (res & Hres & Hpast & _).
  exists res. split; [exact Hres|]. exact (Hpast eq_refl).
Defined.

Lemma unknown_number_example :
  (∀ r, r ∈ [acme] → license_number r ≠ "LIC-2024-12345")
  ∧ verificationResult
      (run new_year_2025 (supabase [acme]) (typed "LIC-2024-12345"))
    = Some {[ "isValid" := VBool false;
              "licenseNumber" := VStr "LIC-2024-12345" ]}.
Proof.
  assert (Hno : ∀ r, r ∈ [acme] → license_number r ≠ "LIC-2024-12345").
  { intros r ->%list_elem_of_singleton. discriminate. }
  split; [exact Hno|].
  destruct (no_match_uniform_answer Date.iso_parse Date.utc_long_date
              new_year_2025 [acme] (typed "LIC-2024-12345") Hno) as [-> _].
  reflexivity.
Defined.

Lemma private_columns_example :
  select <$> [acme] = select <$> [acme_other_owner]
  ∧ run new_year_2025 (supabase [acme]) (typed "LIC-2024-00001")
    = run new_year_2025 (supabase [acme_other_owner]) (typed "LIC-2024-00001").
Proof.
  split; [reflexivity|].
  exact (proj1 (verification_independent_of_private_columns
                  Date.iso_parse Date.utc_long_date new_year_2025
                  [acme] [acme_other_owner] (typed "LIC-2024-00001") eq_refl)).
Defined.

Lemma empty_hash_example :
  let table := [with_hash (Some "") acme] in
  supabase table "LIC-2024-00001"
    = Fulfilled {| data := Some (select (with_hash (Some "") acme));
                   error := None |}
  ∧ sel_blockchain_hash (select (with_hash (Some "") acme)) = Some ""
  ∧ ∃ res,
      verificationResult
        (run 1704067200000 (supabase table) (typed "LIC-2024-00001"))
      = Some res
      ∧ res !! "blockchainHash" = Some (VStr "N/A").
Proof.
  simpl. split; [reflexivity|]. split; [reflexivity|].
  exact (proj1 (missing_hash_shown_as_sentinel
                  Date.iso_parse Date.utc_long_date 1704067200000
                  (supabase [with_hash (Some "") acme])
                  (typed "LIC-2024-00001")
                  (select (with_hash (Some "") acme))
                  eq_refl (or_intror eq_refl))).
Defined.

Lemma echoed_number_example :
  verificationResult
    (run 1704067200000 (supabase [acme]) (typed "LIC-2024-00001"))
  = Some (found_result Date.iso_parse Date.utc_long_date 1704067200000
            (select acme))
  ∧ found_result Date.iso_parse Date.utc_long_date 1704067200000 (select acme)
      !! "licenseNumber"
    = Some (VStr "LIC-2024-00001").
Proof.
  split; [reflexivity|].
  exact (result_echoes_queried_number Date.iso_parse Date.utc_long_date
           1704067200000 [acme] (typed "LIC-2024-00001") _ eq_refl).
Defined.

Lemma store_error_example :
  let s := typed "LIC-2024-00001" in
  is_Some (verificationResult s)
  ∧ unavailable (licenseId s)
    = Fulfilled {| data := None;
                   error := Some {| code := "503";
                                    message := "Service Unavailable" |} |}
  ∧ verificationResult (run new_year_2025 unavailable s) = None.
Proof.
  simpl. split; [by eexists|]. split; [reflexivity|].
  destruct (attempt_clears_previous_result Date.iso_parse Date.utc_long_date
              new_year_2025 unavailable (typed "LIC-2024-00001"))
    as (_ & _ & Herr & _).
  exact (proj1 (Herr _ _ eq_refl eq_refl)).
Defined.

End Examples.

Section ApplyExamples.

Import Zod Apply Sample.

(** A valid form submitted by a signed-in user: one payload, owned by
    that user, pending, and without the form's own [status]. *)
Example signed_in_submission :
  handleSubmit simple_email accepting (form_values long_description) signed_in
  = ({| user := Some dana; loading := false; errors := ∅;
        toasts := [{| title := "Application Submitted";
                      description :=
                        "Your license application has been submitted successfully!";
                      variant := None |}];
        navigations := ["/dashboard"];
        console := [] |},
     [ {[ "user_id" := VStr "c2f1d6a0-7e3b-4b8c-9f6d-2a4e8b0c1d33";
          "license_type" := VStr "Business License";
          "business_name" := VStr "Acme Trading";
          "registration_number" := VStr "REG-778899";
          "business_address" := VStr "12 Harbour Road, Springfield";
          "contact_person" := VStr "Dana Reyes";
          "contact_email" := VStr "dana@acme.example";
          "phone_number" := VStr "+1 234 567 8900";
          "business_type" := VStr "Retail";
          "business_description" := VStr long_description;
          "status" := VStr "pending" ]} ]).
Proof. vm_compute. reflexivity. Qed.

(** A malformed email is reported under its own field. *)
Example bad_email_rejected :
  ∃ errs,
    handleSubmit simple_email accepting
      (<["contact_email" := VStr "dana.acme.example"]>
         (form_values long_description)) signed_in
    = (setErrors errs signed_in, [])
    ∧ errs = {[ "contact_email" := "Please provide a valid email address" ]}.
Proof. eexists. split; vm_compute; reflexivity. Qed.

(** After a session for Dana and then a sign-out notice, the caller holds
    no session, and yet a submission is sent, in Dana's name. *)
Lemma insert_sent_after_sign_out :
  let notices := [Session.Checked (Some dana); Session.Changed None] in
  Session.current_session notices = None
  ∧ (onSubmit accepting (form_values long_description) (Session.page_after notices)).2
    = [insert_payload dana (form_values long_description)]
  ∧ ¬ (Session.current_session notices = None →
       (onSubmit accepting (form_values long_description)
          (Session.page_after notices)).2 = []).
Proof.
  simpl. split; [reflexivity|]. split; [reflexivity|].
  intros Hclaim. specialize (Hclaim eq_refl). discriminate Hclaim.
Qed.

Lemma no_page_user_example :
  user (Session.page_after [Session.Checked None]) = None
  ∧ onSubmit accepting (form_values long_description)
      (Session.page_after [Session.Checked None])
    = (navigate "/login"
         (toast authentication_required (Session.page_after [Session.Checked None])),
       []).
Proof.
  split; [reflexivity|].
  destruct (submission_requires_page_user simple_email accepting
              (form_values long_description)
              (Session.page_after [Session.Checked None])) as [Hnone _].
  exact (proj1 (Hnone eq_refl)).
Defined.

Lemma pending_status_example :
  let row := insert_payload dana (strip applicationSchema (form_values long_description)) in
  form_values long_description !! "status" = Some (VStr "approved")
  ∧ row ∈ (handleSubmit simple_email accepting
             (form_values long_description) signed_in).2
  ∧ row !! "status" = Some (VStr "pending").
Proof.
  simpl. split; [reflexivity|].
  assert (Hin : insert_payload dana
                  (strip applicationSchema (form_values long_description))
                ∈ (handleSubmit simple_email accepting
                     (form_values long_description) signed_in).2).
  { vm_compute. left. }
  split; [exact Hin|].
  exact (inserted_status_is_pending simple_email accepting
           (form_values long_description) signed_in _ Hin).
Defined.

(** Nineteen characters in twenty bytes are still too short. *)
Example accented_description_rejected :
  utf16_length "Café retail trading" = 19%nat
  ∧ ∃ errs,
      handleSubmit simple_email accepting (form_values "Café retail trading") signed_in
      = (setErrors errs signed_in, [])
      ∧ errs = {[ "business_description" :=
                    "Please provide a detailed description (at least 20 characters)" ]}.
Proof. split; [reflexivity|]. eexists. split; vm_compute; reflexivity. Qed.


End ApplyExamples.

(** * Further properties of the verification page *)

Section VerifyMore.

Import Licenses Verify View.

Variable Date_parse : string → Date.time_value.
Variable toLocaleDateString : Date.time_value → string.

#[local] Abbreviation found_result := (found_result Date_parse toLocaleDateString).
#[local] Abbreviation handleVerify := (handleVerify Date_parse toLocaleDateString).

(** X1: in a table that keeps [license_number] unique, looking up the
    number of a stored row displays the result built from that very row,
    raises no toast and logs nothing. *)
Theorem lookup_finds_the_stored_row now table s r :
  unique_license_number table →
  r ∈ table →
  licenseId s = license_number r →
  handleVerify now (supabase table) s
  = {| licenseId := licenseId s;
       verificationResult := Some (found_result now (select r));
       loading := false;
       toasts := toasts s;
       console := console s |}.
Proof.
  intros Huniq Hin Hid.
  assert (Hq : verify_query table (licenseId s)
               = {| data := Some (select r); error := None |}).
  { pose proof (unique_number_at_most_one Date_parse toLocaleDateString (licenseId s) table Huniq) as Hlen.
    assert (Hr : r ∈ eq_license_number (licenseId s) table)
      by (by apply (eq_license_number_spec Date_parse toLocaleDateString)).
    unfold verify_query.
    destruct (eq_license_number (licenseId s) table) as [|r1 [|r2 rows]];
      [by apply elem_of_nil in Hr| |simpl in Hlen; lia].
    by apply list_elem_of_singleton in Hr as ->. }
  unfold Verify.handleVerify, supabase. by rewrite Hq.
Qed.

(** X2: against a table that keeps [license_number] unique the lookup
    never fails: every run ends with a result on display, with the toasts
    and the console as they were. *)
Theorem unique_table_always_answers now table s :
  unique_license_number table →
  is_Some (verificationResult (handleVerify now (supabase table) s))
  ∧ toasts (handleVerify now (supabase table) s) = toasts s
  ∧ console (handleVerify now (supabase table) s) = console s.
Proof.
  intros Huniq.
  pose proof (unique_number_no_error Date_parse toLocaleDateString (licenseId s) table Huniq) as Herr.
  unfold Verify.handleVerify, supabase.
  destruct (verify_query table (licenseId s)) as [[d|] e]; simpl in *;
    subst e; simpl; eauto.
Qed.

(** X3: when two or more rows carry the queried number, the lookup is an
    error: no result is displayed, the "Failed to verify" toast is raised
    and the store's message is logged. *)
Theorem duplicate_number_fails_lookup now table s r1 r2 rows :
  eq_license_number (licenseId s) table = r1 :: r2 :: rows →
  handleVerify now (supabase table) s
  = {| licenseId := licenseId s;
       verificationResult := None;
       loading := false;
       toasts := toasts s ++ [{| title := "Error";
                                 description := "Failed to verify license. Please try again.";
                                 variant := Some "destructive" |}];
       console := console s
                  ++ ["Verification error: JSON object requested, multiple (or no) rows returned"] |}.
Proof.
  intros Hrows. unfold Verify.handleVerify, supabase, verify_query.
  by rewrite Hrows.
Qed.

(** X4: whatever the store does, the handler ends with [loading] off and
    the typed number untouched. When the store answers without error,
    a result is displayed and no toast is raised or line logged; when it
    answers with an error, no result is displayed and exactly the
    "Failed to verify license" toast is raised; when the query throws,
    no result is displayed and exactly the "unexpected error" toast is
    raised. *)
Theorem handler_always_settles now store s :
  loading (handleVerify now store s) = false
  ∧ licenseId (handleVerify now store s) = licenseId s
  ∧ (∀ d, store (licenseId s) = Fulfilled {| data := d; error := None |} →
       is_Some (verificationResult (handleVerify now store s))
       ∧ toasts (handleVerify now store s) = toasts s
       ∧ console (handleVerify now store s) = console s)
  ∧ (∀ d e, store (licenseId s) = Fulfilled {| data := d; error := Some e |} →
       verificationResult (handleVerify now store s) = None
       ∧ toasts (handleVerify now store s)
         = toasts s ++ [{| title := "Error";
                           description := "Failed to verify license. Please try again.";
                           variant := Some "destructive" |}]
       ∧ console (handleVerify now store s)
         = console s ++ ["Verification error: " +:+ message e])
  ∧ (∀ reason, store (licenseId s) = Thrown reason →
       verificationResult (handleVerify now store s) = None
       ∧ toasts (handleVerify now store s)
         = toasts s ++ [{| title := "Error";
                           description := "An unexpected error occurred.";
                           variant := Some "destructive" |}]
       ∧ console (handleVerify now store s)
         = console s ++ ["Unexpected error: " +:+ reason]).
Proof.
  unfold Verify.handleVerify.
  split; [by destruct (store (licenseId s)) as [[[d|] [e|]]|reason]|].
  split; [by destruct (store (licenseId s)) as [[[d|] [e|]]|reason]|].
  split; [|split].
  - intros d ->. destruct d; simpl; eauto.
  - intros d e ->. done.
  - intros reason ->. done.
Qed.

(** X5: a matched row whose [expiry_date] does not parse is never
    treated as expired: validity is decided by the status alone and the
    stored status is shown. *)
Theorem unparseable_expiry_never_expires now store s d :
  store (licenseId s) = Fulfilled {| data := Some d; error := None |} →
  Date_parse (sel_expiry_date d) = None →
  ∃ res,
    verificationResult (handleVerify now store s) = Some res
    ∧ res !! "isValid" = Some (VBool (bool_decide (sel_status d = "active")))
    ∧ res !! "status" = Some (VStr (sel_status d)).
Proof.
  intros Hq Hnan. eexists. split; [by apply handleVerify_found|].
  assert (Hshape : ∀ d', found_result now d' !! "isValid"
      = Some (VBool (negb (Date.lt (Date_parse (sel_expiry_date d')) (Some now))
                     && bool_decide (sel_status d' = "active")))
    ∧ found_result now d' !! "status"
      = Some (VStr (if Date.lt (Date_parse (sel_expiry_date d')) (Some now)
                    then "Expired" else sel_status d'))) by (split; reflexivity).
  destruct (Hshape d) as [-> ->]. by rewrite Hnan.
Qed.

(** X6: validity only decays with time: a row reported valid at some
    instant is reported valid at every earlier instant, and a row shown
    as ['Expired'] stays so at every later one. *)
Theorem validity_decays_with_time now1 now2 d :
  (now1 ≤ now2)%Z →
  (found_result now2 d !! "isValid" = Some (VBool true) →
   found_result now1 d !! "isValid" = Some (VBool true))
  ∧ (sel_status d ≠ "Expired" →
     found_result now1 d !! "status" = Some (VStr "Expired") →
     found_result now2 d !! "status" = Some (VStr "Expired")).
Proof.
  intros Hle.
  assert (Hshape : ∀ now, found_result now d !! "isValid"
      = Some (VBool (negb (Date.lt (Date_parse (sel_expiry_date d)) (Some now))
                     && bool_decide (sel_status d = "active")))
    ∧ found_result now d !! "status"
      = Some (VStr (if Date.lt (Date_parse (sel_expiry_date d)) (Some now)
                    then "Expired" else sel_status d))) by (split; reflexivity).
  destruct (Hshape now1) as [-> ->], (Hshape now2) as [-> ->].
  destruct (Date_parse (sel_expiry_date d)) as [t|]; simpl.
  - destruct (Z.ltb_spec t now1), (Z.ltb_spec t now2); simpl;
      split; try done; try lia.
  - split; [done|]. intros Hne [=]. congruence.
Qed.

(** X7: the displayed result never depends on what the page showed
    before: two pages with the same typed number end with the same result
    and the same [loading] flag. *)
Theorem result_independent_of_history now store s s' :
  licenseId s = licenseId s' →
  verificationResult (handleVerify now store s)
  = verificationResult (handleVerify now store s')
  ∧ loading (handleVerify now store s) = loading (handleVerify now store s').
Proof.
  intros Hid. unfold Verify.handleVerify. rewrite Hid.
  destruct (store (licenseId s')) as [[[d|] [e|]]|reason]; done.
Qed.

(** X8: what the result block shows is decided by the store's answer.
    After an error or a thrown query it shows nothing. For an unknown
    number it shows the two lines of "Invalid License". For a matched row
    it shows the license details, with the status printed as ['active'],
    exactly when the row is ['active'] and not expired; for every other
    matched row (expired, suspended, revoked) it shows the same two
    lines as for an unknown number, so the recomputed ['Expired'] is
    never printed. *)
Theorem details_only_for_valid_license now store s :
  let panel := result_panel (verificationResult (handleVerify now store s)) in
  (∀ d e, store (licenseId s) = Fulfilled {| data := d; error := Some e |} →
     panel = [])
  ∧ (∀ reason, store (licenseId s) = Thrown reason → panel = [])
  ∧ (store (licenseId s) = Fulfilled {| data := None; error := None |} →
     panel = ["Invalid License"; "This license could not be verified"])
  ∧ (∀ d, store (licenseId s) = Fulfilled {| data := Some d; error := None |} →
       (sel_status d = "active"
        ∧ Date.lt (Date_parse (sel_expiry_date d)) (Some now) = false →
        panel
        = [ "License Verified"; "This license is valid and authentic";
            "License Number"; sel_license_number d;
            "Status"; "active";
            "Business Name"; sel_business_name d;
            "License Type"; sel_license_type d;
            "Issue Date"; toLocaleDateString (Date_parse (sel_issue_date d));
            "Expiry Date"; toLocaleDateString (Date_parse (sel_expiry_date d));
            "Blockchain Hash"; or_else (sel_blockchain_hash d) "N/A" ])
       ∧ (¬ (sel_status d = "active"
             ∧ Date.lt (Date_parse (sel_expiry_date d)) (Some now) = false) →
          panel = ["Invalid License"; "This license could not be verified"])).
Proof.
  simpl. unfold Verify.handleVerify.
  split; [by intros d e ->|]. split; [by intros reason ->|].
  split; [by intros ->|]. intros d ->. simpl.
  assert (Hv : ∀ (m : gmap string JsVal) b,
             default VUndefined (<["isValid" := VBool b]> m !! "isValid") = VBool b)
    by (intros; by rewrite lookup_insert_eq).
  split.
  - intros [Hact Hexp].
    unfold result_panel, get, Verify.found_result.
    rewrite Hexp, Hact. reflexivity.
  - intros Hnot.
    unfold result_panel, get, Verify.found_result. rewrite !Hv.
    destruct (Date.lt (Date_parse (sel_expiry_date d)) (Some now)) eqn:Hexp;
      [reflexivity|].
    rewrite bool_decide_eq_false_2 by tauto. reflexivity.
Qed.

End VerifyMore.

(** * Row-level security of the migrations *)

Section Policies.

Import RLS.

Implicit Types (ctx : Context) (c : Command).

Lemma uid_is_true ctx x : uid_is ctx x = true ↔ uid ctx = Some x.
Proof. unfold uid_is. apply bool_decide_eq_true. Qed.



(** X9: an application row may be inserted exactly by the principal
    named in its [user_id]: not anonymously, and not on behalf of another
    user, not even by an administrator. *)
Theorem application_insert_only_as_self ctx (r : Applications.Row) :
  permits_new Applications.policies ctx INSERT r = true
  ↔ uid ctx = Some (Applications.user_id r).
Proof.
  unfold permits_new. simpl. unfold check_holds. simpl.
  rewrite orb_false_r. apply uid_is_true.
Qed.

(** X10: an application row is visible to its owner and to
    administrators only; only administrators may update it, so an owner
    cannot alter a submitted application, its status included; and no
    principal, administrators included, may delete it. *)
Theorem application_read_update_delete_rights ctx (r : Applications.Row) :
  (permits_existing Applications.policies ctx SELECT r = true
   ↔ uid ctx = Some (Applications.user_id r) ∨ is_admin ctx = true)
  ∧ (permits_existing Applications.policies ctx UPDATE r = true
     ↔ is_admin ctx = true)
  ∧ (permits_new Applications.policies ctx UPDATE r = true
     ↔ is_admin ctx = true)
  ∧ permits_existing Applications.policies ctx DELETE r = false.
Proof.
  unfold permits_existing, permits_new. simpl.
  unfold using_holds, check_holds, using_holds. simpl.
  rewrite !orb_false_r, orb_true_iff, uid_is_true. tauto.
Qed.

(** X11: every row of [licenses] is readable by every principal, the
    anonymous one included, while inserting, updating and deleting
    license rows is for administrators only. *)
Theorem licenses_public_read_admin_write ctx (r : Licenses.Row) :
  permits_existing LicensePolicies.policies ctx SELECT r = true
  ∧ permits_existing LicensePolicies.policies ctx UPDATE r = is_admin ctx
  ∧ permits_existing LicensePolicies.policies ctx DELETE r = is_admin ctx
  ∧ permits_new LicensePolicies.policies ctx INSERT r = is_admin ctx
  ∧ permits_new LicensePolicies.policies ctx UPDATE r = is_admin ctx.
Proof.
  unfold permits_existing, permits_new. simpl.
  unfold using_holds, check_holds, using_holds. simpl.
  by rewrite !orb_true_r, !orb_false_r.
Qed.

(** X12: the second migration, which replaces the public policy on
    [licenses], changes no decision: for every principal, command and
    row the policies after it permit exactly what the policies before it
    permitted. *)
Theorem second_migration_changes_no_decision ctx c (r : Licenses.Row) :
  permits_existing (LicensePolicies.second_migration LicensePolicies.first_migration) ctx c r
  = permits_existing LicensePolicies.first_migration ctx c r
  ∧ permits_new (LicensePolicies.second_migration LicensePolicies.first_migration) ctx c r
    = permits_new LicensePolicies.first_migration ctx c r.
Proof.
  destruct c; unfold permits_existing, permits_new; simpl;
    unfold using_holds, check_holds, using_holds; simpl;
    rewrite ?orb_false_r, ?orb_true_r; done.
Qed.


(** X14: rows of [user_roles] are written by administrators only: a
    principal who is not an administrator can neither insert a role row,
    for instance one that names themselves administrator, nor update or
    delete one; they can read their own role rows. *)
Theorem roles_are_managed_by_admins_only ctx (r : UserRoles.Row) :
  permits_new RolePolicies.policies ctx INSERT r = is_admin ctx
  ∧ permits_new RolePolicies.policies ctx UPDATE r = is_admin ctx
  ∧ permits_existing RolePolicies.policies ctx UPDATE r = is_admin ctx
  ∧ permits_existing RolePolicies.policies ctx DELETE r = is_admin ctx
  ∧ (permits_existing RolePolicies.policies ctx SELECT r = true
     ↔ uid ctx = Some (UserRoles.user_id r) ∨ is_admin ctx = true).
Proof.
  unfold permits_existing, permits_new. simpl.
  unfold using_holds, check_holds, using_holds. simpl.
  rewrite !orb_false_r, orb_diag, orb_true_iff, uid_is_true. tauto.
Qed.

(** X15: a profile is readable by its owner and by administrators,
    updatable by its owner only, and no principal may insert or delete a
    profile through the policies. *)
Theorem profile_rights ctx (r : Profiles.Row) :
  (permits_existing Profiles.policies ctx SELECT r = true
   ↔ uid ctx = Some (Profiles.id r) ∨ is_admin ctx = true)
  ∧ (permits_existing Profiles.policies ctx UPDATE r = true
     ↔ uid ctx = Some (Profiles.id r))
  ∧ (permits_new Profiles.policies ctx UPDATE r = true
     ↔ uid ctx = Some (Profiles.id r))
  ∧ permits_new Profiles.policies ctx INSERT r = false
  ∧ permits_existing Profiles.policies ctx DELETE r = false.
Proof.
  unfold permits_existing, permits_new. simpl.
  unfold using_holds, check_holds, using_holds. simpl.
  rewrite !orb_false_r, orb_true_iff, !uid_is_true. tauto.
Qed.

End Policies.

(** * The new-user trigger *)

Section Provisioning.

Import Profiles.

Lemma has_role_app table extra u role :
  UserRoles.has_role (table ++ extra) u role
  = UserRoles.has_role table u role || UserRoles.has_role extra u role.
Proof. unfold UserRoles.has_role. apply existsb_app. Qed.

(** X16: an identity is provisioned at most once: after a run of the
    trigger that succeeded, every further run for the same id fails,
    whatever its email, metadata, time and generated key, so no identity
    ever gets a second profile or a second ['user'] role row. *)
Theorem provisioning_happens_once
    now uuid NEW profiles user_roles profiles' user_roles' now' uuid' NEW' :
  handle_new_user now uuid NEW profiles user_roles = Some (profiles', user_roles') →
  new_id NEW' = new_id NEW →
  handle_new_user now' uuid' NEW' profiles' user_roles' = None.
Proof.
  unfold handle_new_user at 1.
  destruct (new_email NEW) as [e|]; [|done].
  repeat case_bool_decide; try done. intros [= <- <-] Hid.
  unfold handle_new_user. destruct (new_email NEW') as [e'|]; [|done].
  rewrite bool_decide_eq_true_2; [done|].
  rewrite Hid, fmap_app. apply elem_of_app. right. simpl. left.
Qed.

(** X17: when the trigger succeeds, the new identity holds the role
    ['user'], its administrator status is what it was before, the roles
    of every other identity are unchanged, its profile carries the
    identity's id and email, and every earlier profile is still there. *)
Theorem new_user_gets_profile_and_user_role
    now uuid NEW profiles user_roles profiles' user_roles' :
  handle_new_user now uuid NEW profiles user_roles = Some (profiles', user_roles') →
  UserRoles.has_role user_roles' (Some (new_id NEW)) UserRoles.user = true
  ∧ UserRoles.has_role user_roles' (Some (new_id NEW)) UserRoles.admin
    = UserRoles.has_role user_roles (Some (new_id NEW)) UserRoles.admin
  ∧ (∀ u role, u ≠ Some (new_id NEW) →
       UserRoles.has_role user_roles' u role = UserRoles.has_role user_roles u role)
  ∧ (∃ p, p ∈ profiles' ∧ id p = new_id NEW ∧ Some (email p) = new_email NEW)
  ∧ (∀ p, p ∈ profiles → p ∈ profiles').
Proof.
  unfold handle_new_user.
  destruct (new_email NEW) as [e|]; [|done].
  repeat case_bool_decide; try done. intros [= <- <-].
  split; [|split; [|split; [|split]]].
  - rewrite has_role_app. apply orb_true_iff. right. simpl.
    rewrite orb_false_r. by apply bool_decide_eq_true.
  - rewrite has_role_app. simpl. rewrite orb_false_r.
    rewrite bool_decide_eq_false_2; [apply orb_false_r|]. by intros [_ ?].
  - intros u role Hu. rewrite has_role_app. simpl. rewrite orb_false_r.
    rewrite bool_decide_eq_false_2; [apply orb_false_r|]. by intros [? _].
  - eexists. split; [apply elem_of_app; right; apply list_elem_of_singleton; reflexivity|].
    done.
  - intros p Hp. apply elem_of_app. by left.
Qed.

(** X18: the trigger keeps the keys of both tables unique: profile ids,
    role-row ids, and [(user_id, role)] pairs. *)
Theorem provisioning_keeps_keys_unique
    now uuid NEW profiles user_roles profiles' user_roles' :
  handle_new_user now uuid NEW profiles user_roles = Some (profiles', user_roles') →
  NoDup (id <$> profiles) →
  NoDup (UserRoles.id <$> user_roles) →
  UserRoles.unique_user_role user_roles →
  NoDup (id <$> profiles')
  ∧ NoDup (UserRoles.id <$> user_roles')
  ∧ UserRoles.unique_user_role user_roles'.
Proof.
  unfold handle_new_user, UserRoles.unique_user_role.
  destruct (new_email NEW) as [e|]; [|done].
  repeat case_bool_decide; try done. intros [= <- <-] Hp Hr Hu.
  rewrite !fmap_app. simpl.
  repeat split; apply NoDup_app; (split; [done|]);
    (split; [|apply NoDup_singleton]);
    intros x Hx ->%list_elem_of_singleton; done.
Qed.

End Provisioning.

(** * Further properties of the application page *)

Section ApplyMore.

Import Zod Apply.

Variable emailRegex : string → bool.

#[local] Abbreviation handleSubmit := (handleSubmit emailRegex).
#[local] Abbreviation object_issues := (object_issues emailRegex).
#[local] Abbreviation string_issues := (string_issues emailRegex).
#[local] Abbreviation violated := (violated emailRegex).
#[local] Abbreviation safeParse := (safeParse emailRegex).

Lemma violated_min n msg s : violated (min n msg) s = None ↔ (n ≤ utf16_length s)%nat.
Proof.
  simpl. destruct (Nat.ltb_spec (utf16_length s) n); split; try done; lia.
Qed.

Lemma violated_max n msg s : violated (max n msg) s = None ↔ (utf16_length s ≤ n)%nat.
Proof.
  simpl. destruct (Nat.ltb_spec n (utf16_length s)); split; try done; lia.
Qed.

Lemma violated_email msg s : violated (email msg) s = None ↔ emailRegex s = true.
Proof. simpl. by destruct (emailRegex s). Qed.

(** A field is free of issues exactly when it is a string that passes
    every check. *)
Lemma string_issues_nil checks v :
  string_issues checks v = []
  ↔ ∃ s, v = VStr s ∧ Forall (λ c, violated c s = None) checks.
Proof.
  destruct v as [| |b|s]; simpl; try (split; [done|by intros (? & [=] & _)]).
  split.
  - intros Hnil. exists s. split; [done|].
    induction checks as [|c checks IH]; [constructor|].
    simpl in Hnil. destruct (Zod.violated emailRegex c s) eqn:Hc; [done|].
    constructor; [done|by apply IH].
  - intros (s' & [= <-] & Hall).
    induction Hall as [|c checks Hc _ IH]; [done|].
    simpl. by rewrite Hc.
Qed.

Lemma object_issues_nil shape values :
  object_issues shape values = []
  ↔ Forall (λ '(k, checks), string_issues checks (get values k) = []) shape.
Proof.
  induction shape as [|[k checks] shape IH].
  - split; [constructor|done].
  - rewrite (object_issues_cons emailRegex), Forall_cons, <- IH.
    split.
    + intros [Hk Hrest]%app_eq_nil. split; [|done].
      by apply fmap_nil_inv in Hk.
    + intros [-> ->]. done.
Qed.

(** The parsed value is the input cut down to the keys of the shape. *)
Lemma strip_lookup shape (input : gmap string JsVal) k :
  strip shape input !! k = if bool_decide (k ∈ shape.*1) then input !! k else None.
Proof.
  unfold strip. induction shape as [|[k0 checks] shape IH]; [done|].
  assert (Hrest : k ≠ k0 →
            (if bool_decide (k ∈ shape.*1) then input !! k else None)
            = (if bool_decide (k ∈ k0 :: shape.*1) then input !! k else None)).
  { intros Hne. destruct (decide (k ∈ shape.*1)).
    - by rewrite !bool_decide_eq_true_2 by (try right; done).
    - rewrite !bool_decide_eq_false_2; [done| |done].
      by intros [?|?]%elem_of_cons. }
  rewrite fmap_cons. simpl.
  destruct (input !! k0) as [v|] eqn:Hk0; simpl.
  - destruct (decide (k = k0)) as [->|Hne].
    + rewrite lookup_insert_eq, bool_decide_eq_true_2 by left. done.
    + rewrite lookup_insert_ne by done. etrans; [exact IH|]. by apply Hrest.
  - etrans; [exact IH|]. destruct (decide (k = k0)) as [->|Hne].
    + rewrite (bool_decide_eq_true_2 (k0 ∈ k0 :: _)) by left.
      rewrite Hk0. by case_bool_decide.
    + by apply Hrest.
Qed.

Lemma first_message_here k (msgs : list string) rest :
  first_message k (((λ m, {| path := k; issue_message := m |}) <$> msgs) ++ rest)
  = match head msgs with
    | Some m => Some m
    | None => first_message k rest
    end.
Proof.
  destruct msgs as [|m msgs]; [done|].
  unfold first_message. rewrite fmap_cons. simpl.
  rewrite filter_cons. simpl. by rewrite decide_True by done.
Qed.

Lemma first_message_absent k shape values :
  k ∉ shape.*1 → first_message k (object_issues shape values) = None.
Proof.
  induction shape as [|[k0 checks] shape IH]; [done|].
  intros Hk. rewrite (object_issues_cons emailRegex).
  rewrite first_message_other.
  - apply IH. intros ?. apply Hk. by right.
  - intros ->. apply Hk. left.
Qed.

Lemma first_message_field k checks shape values :
  NoDup shape.*1 →
  (k, checks) ∈ shape →
  first_message k (object_issues shape values)
  = head (string_issues checks (get values k)).
Proof.
  induction shape as [|[k0 checks0] shape IH]; [by intros _ ?%elem_of_nil|].
  rewrite (object_issues_cons emailRegex), fmap_cons, NoDup_cons.
  cbn [fst]. intros [Hfresh Hnodup] Hin.
  apply elem_of_cons in Hin as [[= -> ->]|Hin].
  - rewrite first_message_here.
    destruct (head _) eqn:Hh; [done|]. by apply first_message_absent.
  - rewrite first_message_other; [by apply IH|].
    intros ->. apply Hfresh. by apply (list_elem_of_fmap_2 fst _ (k, checks)).
Qed.

Lemma schema_keys_distinct : NoDup applicationSchema.*1.
Proof. compute_done. Qed.

(** X19: the schema accepts a form exactly when all nine fields are
    strings within their bounds: the two selections non-empty, the name
    2 to 200 characters, the registration number 3 to 50, the address 10
    to 500, the contact person 2 to 100, the email matched by the email
    expression and at most 255, the phone number 10 to 20, and the
    description 20 to 1000. *)
Theorem schema_accepts_exactly values :
  (∃ data, safeParse applicationSchema values = Success data)
  ↔ ∃ lt bn rn ba cp ce pn bt bd,
      (get values "license_type" = VStr lt ∧ 1 ≤ utf16_length lt)
      ∧ (get values "business_name" = VStr bn ∧ 2 ≤ utf16_length bn ≤ 200)
      ∧ (get values "registration_number" = VStr rn ∧ 3 ≤ utf16_length rn ≤ 50)
      ∧ (get values "business_address" = VStr ba ∧ 10 ≤ utf16_length ba ≤ 500)
      ∧ (get values "contact_person" = VStr cp ∧ 2 ≤ utf16_length cp ≤ 100)
      ∧ (get values "contact_email" = VStr ce ∧ emailRegex ce = true
         ∧ utf16_length ce ≤ 255)
      ∧ (get values "phone_number" = VStr pn ∧ 10 ≤ utf16_length pn ≤ 20)
      ∧ (get values "business_type" = VStr bt ∧ 1 ≤ utf16_length bt)
      ∧ (get values "business_description" = VStr bd
         ∧ 20 ≤ utf16_length bd ≤ 1000).
Proof.
  assert (Hparse : (∃ data, safeParse applicationSchema values = Success data)
                   ↔ object_issues applicationSchema values = []).
  { unfold Zod.safeParse.
    destruct (Zod.object_issues emailRegex applicationSchema values);
      split; eauto; try done. by intros [? [=]]. }
  rewrite Hparse, object_issues_nil. unfold applicationSchema.
  rewrite !Forall_cons, Forall_nil, !string_issues_nil.
  setoid_rewrite Forall_cons. setoid_rewrite Forall_cons.
  setoid_rewrite Forall_nil.
  setoid_rewrite violated_min. setoid_rewrite violated_max.
  setoid_rewrite violated_email.
  split.
  - intros ((lt & ? & ? & _) & (bn & ? & ? & ? & _) & (rn & ? & ? & ? & _)
            & (ba & ? & ? & ? & _) & (cp & ? & ? & ? & _) & (ce & ? & ? & ? & _)
            & (pn & ? & ? & ? & _) & (bt & ? & ? & _) & (bd & ? & ? & ? & _) & _).
    exists lt, bn, rn, ba, cp, ce, pn, bt, bd. repeat split; done.
  - intros (lt & bn & rn & ba & cp & ce & pn & bt & bd & Hlt & Hbn & Hrn & Hba
            & Hcp & Hce & Hpn & Hbt & Hbd).
    destruct Hlt, Hbn, Hrn, Hba, Hcp, Hce as (? & ? & ?), Hpn, Hbt, Hbd.
    repeat split; eexists; (split; [eassumption|]);
      repeat split; first [lia|assumption].
Qed.

(** What a successful parse says about each field of the schema. *)
Lemma parsed_fields values data k :
  safeParse applicationSchema values = Success data →
  k ∈ applicationSchema.*1 →
  ∃ s, values !! k = Some (VStr s) ∧ data !! k = Some (VStr s).
Proof.
  unfold Zod.safeParse. intros Hparse Hk.
  destruct (Zod.object_issues emailRegex applicationSchema values) eqn:Hnil;
    [|done].
  injection Hparse as <-.
  apply list_elem_of_fmap in Hk as ([k' checks] & -> & Hin). simpl.
  apply object_issues_nil in Hnil.
  rewrite Forall_forall in Hnil. specialize (Hnil _ Hin). simpl in Hnil.
  apply string_issues_nil in Hnil as (s & Hs & _). exists s.
  assert (Hv : values !! k' = Some (VStr s)).
  { unfold get in Hs. by destruct (values !! k') as [v|]; simplify_eq/=. }
  split; [done|]. rewrite strip_lookup, bool_decide_eq_true_2; [done|].
  by apply (list_elem_of_fmap_2 fst _ (k', checks)).
Qed.

(** X20: the value handed to [onSubmit] after a successful parse is the
    submitted form cut down to the nine fields of the schema, each of
    them a string: any other key, a [status] for instance, is gone. *)
Theorem parsed_value_keeps_schema_fields_only values data :
  safeParse applicationSchema values = Success data →
  (∀ k, k ∈ applicationSchema.*1 →
        data !! k = values !! k ∧ ∃ s, values !! k = Some (VStr s))
  ∧ (∀ k, k ∉ applicationSchema.*1 → data !! k = None).
Proof.
  intros Hparse. split.
  - intros k Hk. destruct (parsed_fields values data k Hparse Hk) as (s & Hv & Hd).
    split; [by rewrite Hv, Hd|by exists s].
  - intros k Hk. unfold Zod.safeParse in Hparse.
    destruct (Zod.object_issues emailRegex applicationSchema values); [|done].
    injection Hparse as <-. by rewrite strip_lookup, bool_decide_eq_false_2.
Qed.

(** X21: the error the form records for a field of the schema is the
    message of the first check that field fails, the type message when
    it is not a string; a field without issue, and any key outside the
    schema, has no error. *)
Theorem field_error_is_first_failed_check values k :
  (∀ checks, (k, checks) ∈ applicationSchema →
     toFieldErrors (object_issues applicationSchema values) !! k
     = head (string_issues checks (get values k)))
  ∧ (k ∉ applicationSchema.*1 →
     toFieldErrors (object_issues applicationSchema values) !! k = None).
Proof.
  split.
  - intros checks Hin. rewrite toFieldErrors_lookup.
    apply first_message_field; [apply schema_keys_distinct|done].
  - intros Hk. rewrite toFieldErrors_lookup. by apply first_message_absent.
Qed.

(** X22: a form that lacks a field of the schema is rejected with
    "Required" under that field, and nothing is sent. *)
Theorem missing_field_is_required store values s k :
  k ∈ applicationSchema.*1 →
  values !! k = None →
  ∃ errs,
    handleSubmit store values s = (setErrors errs s, [])
    ∧ errs !! k = Some "Required".
Proof.
  intros Hk Hmissing.
  apply list_elem_of_fmap in Hk as ([k' checks] & -> & Hin). simpl in *.
  assert (Hmsg : first_message k' (object_issues applicationSchema values)
                 = Some "Required").
  { rewrite (first_message_field k' checks) by (apply schema_keys_distinct || done).
    unfold get. by rewrite Hmissing. }
  exists (toFieldErrors (object_issues applicationSchema values)).
  split; [|by rewrite toFieldErrors_lookup].
  unfold Apply.handleSubmit, Zod.safeParse.
  destruct (Zod.object_issues emailRegex applicationSchema values);
    [discriminate Hmsg|reflexivity].
Qed.

(** X23: a rejected form changes nothing on the page but the field
    errors: no toast, no navigation, nothing sent; at least one error is
    recorded, and every error sits under a field of the schema. *)
Theorem rejected_form_only_sets_errors store values s issues :
  safeParse applicationSchema values = Failure issues →
  handleSubmit store values s = (setErrors (toFieldErrors issues) s, [])
  ∧ toFieldErrors issues ≠ ∅
  ∧ ∀ k, is_Some (toFieldErrors issues !! k) → k ∈ applicationSchema.*1.
Proof.
  intros Hparse.
  assert (Hissues : issues = object_issues applicationSchema values ∧ issues ≠ []).
  { unfold Zod.safeParse in Hparse.
    destruct (Zod.object_issues emailRegex applicationSchema values); [done|].
    by injection Hparse as <-. }
  destruct Hissues as [Heq Hne].
  split; [unfold Apply.handleSubmit; by rewrite Hparse|]. split.
  - destruct issues as [|i issues]; [done|]. intros Hempty.
    assert (Hi : toFieldErrors (i :: issues) !! path i = Some (issue_message i)).
    { rewrite toFieldErrors_lookup. unfold first_message.
      rewrite filter_cons. by rewrite decide_True by done. }
    by rewrite Hempty, lookup_empty in Hi.
  - intros k [m Hk]. destruct (decide (k ∈ applicationSchema.*1)) as [|Hout]; [done|].
    rewrite Heq, toFieldErrors_lookup, first_message_absent in Hk by done.
    discriminate Hk.
Qed.

(** X24: for a signed-in user [onSubmit] sends exactly one insert,
    raises exactly one toast and ends with [loading] off; it navigates,
    to the dashboard, exactly when the insert came back without an
    error, and then the toast is the success toast, while every failure
    toast is destructive. *)
Theorem signed_in_submission_outcomes store data s u :
  user s = Some u →
  (onSubmit store data s).2 = [insert_payload u data]
  ∧ loading (onSubmit store data s).1 = false
  ∧ user (onSubmit store data s).1 = Some u
  ∧ ∃ t, toasts (onSubmit store data s).1 = toasts s ++ [t]
    ∧ ((store (insert_payload u data) = Fulfilled None
        ∧ navigations (onSubmit store data s).1 = navigations s ++ ["/dashboard"]
        ∧ title t = "Application Submitted" ∧ variant t = None)
       ∨ (store (insert_payload u data) ≠ Fulfilled None
          ∧ navigations (onSubmit store data s).1 = navigations s
          ∧ variant t = Some "destructive")).
Proof.
  intros Hu. unfold onSubmit. rewrite Hu.
  destruct (store (insert_payload u data)) as [[e|]|reason]; simpl;
    (split; [done|split; [done|split; [done|]]]);
    eexists; (split; [reflexivity|]); simpl; auto.
Qed.

(** X25: the payload a submission sends carries, under each of the nine
    schema fields, exactly the submitted value, and has no member beyond
    those, [user_id] and [status]. *)
Theorem payload_carries_the_validated_fields store values s row :
  row ∈ (handleSubmit store values s).2 →
  (∀ k, k ∈ applicationSchema.*1 → row !! k = values !! k)
  ∧ dom row
    = {[ "user_id"; "license_type"; "business_name"; "registration_number";
         "business_address"; "contact_person"; "contact_email";
         "phone_number"; "business_type"; "business_description"; "status" ]}.
Proof.
  unfold Apply.handleSubmit.
  destruct (safeParse applicationSchema values) as [data|issues] eqn:Hparse;
    [|by intros ?%elem_of_nil].
  rewrite onSubmit_inserts. simpl.
  destruct (user s) as [u|]; [|by intros ?%elem_of_nil].
  intros ->%list_elem_of_singleton. split.
  - intros k Hk.
    destruct (parsed_fields values data k Hparse Hk) as (v & -> & Hd).
    assert (Hget : get data k = VStr v) by (unfold get; by rewrite Hd).
    rewrite <- Hget. clear Hget Hd.
    unfold applicationSchema in Hk. simpl in Hk.
    repeat (apply elem_of_cons in Hk as [->|Hk]; [reflexivity|]).
    by apply elem_of_nil in Hk.
  - unfold insert_payload. rewrite !dom_insert_L, dom_singleton_L. set_solver.
Qed.

End ApplyMore.

(** * The application page against the store *)

Section Intake.

Import Zod Apply RLS.

Variable emailRegex : string → bool.

#[local] Abbreviation handleSubmit := (handleSubmit emailRegex).
#[local] Abbreviation safeParse := (safeParse emailRegex).

(** The payload built from a parsed form reads as columns. *)
Lemma payload_reads_as_columns values data u :
  safeParse applicationSchema values = Success data →
  ∃ n, Applications.of_payload (insert_payload u data) = Some n
       ∧ Applications.new_user_id n = id u
       ∧ Applications.new_status n = Some "pending"
       ∧ values !! "business_description"
         = Some (VStr (Applications.new_business_description n)).
Proof.
  intros Hparse.
  assert (Hfield : ∀ k, k ∈ applicationSchema.*1 →
            ∃ s, values !! k = Some (VStr s) ∧ get data k = VStr s).
  { intros k Hk.
    destruct (parsed_fields emailRegex values data k Hparse Hk) as (s & Hv & Hd).
    exists s. split; [done|]. unfold get. by rewrite Hd. }
  destruct (Hfield "license_type") as (lt & _ & Hlt); [compute_done|].
  destruct (Hfield "business_name") as (bn & _ & Hbn); [compute_done|].
  destruct (Hfield "registration_number") as (rn & _ & Hrn); [compute_done|].
  destruct (Hfield "business_address") as (ba & _ & Hba); [compute_done|].
  destruct (Hfield "contact_person") as (cp & _ & Hcp); [compute_done|].
  destruct (Hfield "contact_email") as (ce & _ & Hce); [compute_done|].
  destruct (Hfield "phone_number") as (pn & _ & Hpn); [compute_done|].
  destruct (Hfield "business_type") as (bt & _ & Hbt); [compute_done|].
  destruct (Hfield "business_description") as (bd & Hvbd & Hbd); [compute_done|].
  unfold insert_payload.
  rewrite Hlt, Hbn, Hrn, Hba, Hcp, Hce, Hpn, Hbt, Hbd.
  eexists. split; [reflexivity|]. simpl. by rewrite Hvbd.
Qed.

(** X26: a valid form submitted by a signed-in user reaches the store as
    one insert that the store accepts exactly for that user: under any
    other principal, the anonymous one included, row-level security
    refuses it; under that user the stored row is owned by the user, has
    status ['pending'], carries the submitted description and has no
    review data. *)
Theorem valid_submission_is_stored_for_its_owner
    ctx auth_users table now uuid store values s u data :
  safeParse applicationSchema values = Success data →
  user s = Some u →
  uuid ∉ (Applications.id <$> table) →
  ∃ row n,
    (handleSubmit store values s).2 = [row]
    ∧ Applications.of_payload row = Some n
    ∧ (uid ctx ≠ Some (id u) →
       Applications.insert ctx auth_users table now uuid n
       = Applications.RowSecurityViolation)
    ∧ (uid ctx = Some (id u) → id u ∈ auth_users →
       ∃ r, Applications.insert ctx auth_users table now uuid n
            = Applications.Inserted r
            ∧ Applications.user_id r = id u
            ∧ Applications.status r = "pending"
            ∧ values !! "business_description"
              = Some (VStr (Applications.business_description r))
            ∧ Applications.reviewed_at r = None
            ∧ Applications.reviewed_by r = None
            ∧ Applications.rejection_reason r = None).
Proof.
  intros Hparse Hu Hfresh.
  destruct (payload_reads_as_columns values data u Hparse)
    as (n & Hn & Hnu & Hns & Hnd).
  exists (insert_payload u data), n.
  split; [unfold Apply.handleSubmit; rewrite Hparse, onSubmit_inserts; simpl;
          by rewrite Hu|].
  split; [done|].
  assert (Hrls : permits_new Applications.policies ctx INSERT
                   (Applications.proposed now uuid n)
                 = bool_decide (uid ctx = Some (id u))).
  { unfold permits_new. simpl. unfold check_holds. simpl.
    by rewrite orb_false_r, Hnu. }
  assert (Hcheck : Applications.status_check (Applications.proposed now uuid n) = true).
  { unfold Applications.status_check. simpl. rewrite Hns. simpl. compute_done. }
  unfold Applications.insert. rewrite Hrls, Hcheck. split.
  - intros Hother. by rewrite bool_decide_eq_false_2.
  - intros Hself Hknown. rewrite bool_decide_eq_true_2 by done. simpl.
    rewrite (bool_decide_eq_false_2 (uuid ∈ _)) by done.
    rewrite Hnu, bool_decide_eq_true_2 by done. simpl.
    eexists. split; [reflexivity|]. simpl. by rewrite Hns.
Qed.

(** X27: a sign-out notice sends the page to the login route but leaves
    its [user] in place: a submission made from that page is still sent
    in that user's name, and it is the store that stops it, refusing the
    row for the now anonymous principal. *)
Theorem sign_out_leaves_the_guard_to_the_store
    ctx auth_users table now uuid store data s u n :
  user s = Some u →
  uid ctx = None →
  Applications.of_payload (insert_payload u data) = Some n →
  navigations (onAuthStateChange None s) = navigations s ++ ["/login"]
  ∧ (onSubmit store data (onAuthStateChange None s)).2 = [insert_payload u data]
  ∧ Applications.insert ctx auth_users table now uuid n
    = Applications.RowSecurityViolation.
Proof.
  intros Hu Hanon Hn. split; [reflexivity|]. split.
  - rewrite onSubmit_inserts. simpl. by rewrite Hu.
  - unfold Applications.insert.
    assert (Hrls : permits_new Applications.policies ctx INSERT
                     (Applications.proposed now uuid n) = false).
    { unfold permits_new. simpl. unfold check_holds. simpl.
      rewrite orb_false_r. unfold uid_is. rewrite Hanon.
      by apply bool_decide_eq_false_2. }
    by rewrite Hrls.
Qed.

End Intake.

(** * Reading and writing under the policies *)

Section Stored.

Import RLS.

(** X28: on every table, whoever may update or delete a row may also
    read it: the [USING] test for a write never passes where every
    [SELECT] policy fails. *)
Theorem whoever_may_write_may_read ctx c :
  c = UPDATE ∨ c = DELETE →
  (∀ r, permits_existing Profiles.policies ctx c r = true →
        permits_existing Profiles.policies ctx SELECT r = true)
  ∧ (∀ r, permits_existing RolePolicies.policies ctx c r = true →
          permits_existing RolePolicies.policies ctx SELECT r = true)
  ∧ (∀ r, permits_existing Applications.policies ctx c r = true →
          permits_existing Applications.policies ctx SELECT r = true)
  ∧ (∀ r, permits_existing LicensePolicies.policies ctx c r = true →
          permits_existing LicensePolicies.policies ctx SELECT r = true).
Proof.
  intros [-> | ->]; repeat split; intros r;
    unfold permits_existing; simpl; unfold using_holds; simpl;
    rewrite ?orb_false_r, ?orb_true_r; try done;
    intros ->; by rewrite ?orb_true_r.
Qed.

(** X29: an application row that the store accepts is the proposed row;
    it is owned by the principal who inserted it, its owner is a known
    identity, a row inserted without a status has status ['pending'],
    and the table keeps its [CHECK] constraint on [status] and its
    unique keys. *)
Theorem accepted_insert_keeps_table_constraints
    ctx auth_users table now uuid n r :
  Applications.insert ctx auth_users table now uuid n = Applications.Inserted r →
  r = Applications.proposed now uuid n
  ∧ uid ctx = Some (Applications.user_id r)
  ∧ Applications.user_id r ∈ auth_users
  ∧ (Applications.new_status n = None → Applications.status r = "pending")
  ∧ (Forall (λ x, Applications.status_check x = true) table →
     Forall (λ x, Applications.status_check x = true) (table ++ [r]))
  ∧ (NoDup (Applications.id <$> table) →
     NoDup (Applications.id <$> (table ++ [r]))).
Proof.
  unfold Applications.insert.
  destruct (permits_new _ _ _ _) eqn:Hrls; simpl; [|done].
  destruct (Applications.status_check _) eqn:Hcheck; simpl; [|done].
  case_bool_decide as Hkey; [done|].
  case_bool_decide as Hknown; simpl; [|done].
  intros [= <-]. split; [done|]. split.
  { unfold permits_new in Hrls. simpl in Hrls. unfold check_holds in Hrls.
    simpl in Hrls. rewrite orb_false_r in Hrls. by apply bool_decide_eq_true in Hrls. }
  split; [done|]. split; [intros Hdefault; simpl; by rewrite Hdefault|]. split.
  - intros Hall. apply Forall_app. split; [done|]. by constructor.
  - intros Hnodup. rewrite fmap_app. apply NoDup_app. split; [done|].
    split; [|apply NoDup_singleton].
    intros x Hx ->%list_elem_of_singleton. done.
Qed.

End Stored.

(** * More closed examples *)

Section MoreExamples.

Import Licenses Verify View Sample Cases.

#[local] Abbreviation run := (handleVerify Date.iso_parse Date.utc_long_date).
#[local] Abbreviation found := (found_result Date.iso_parse Date.utc_long_date).

Lemma stored_row_example :
  unique_license_number [acme]
  ∧ acme ∈ [acme]
  ∧ licenseId (typed "LIC-2024-00001") = license_number acme
  ∧ verificationResult (run 1704067200000 (supabase [acme]) (typed "LIC-2024-00001"))
    = Some (found 1704067200000 (select acme)).
Proof.
  assert (Hu : unique_license_number [acme]) by apply NoDup_singleton.
  assert (Hin : acme ∈ [acme]) by left.
  split; [exact Hu|]. split; [exact Hin|]. split; [reflexivity|].
  by rewrite (lookup_finds_the_stored_row Date.iso_parse Date.utc_long_date
                1704067200000 [acme] (typed "LIC-2024-00001") acme Hu Hin eq_refl).
Defined.

Lemma unique_table_example :
  unique_license_number [acme]
  ∧ is_Some (verificationResult
               (run new_year_2025 (supabase [acme]) (typed "LIC-2024-12345"))).
Proof.
  assert (Hu : unique_license_number [acme]) by apply NoDup_singleton.
  split; [exact Hu|].
  exact (proj1 (unique_table_always_answers Date.iso_parse Date.utc_long_date
                  new_year_2025 [acme] (typed "LIC-2024-12345") Hu)).
Defined.

Lemma duplicate_number_example :
  eq_license_number "LIC-2024-00001" [acme; acme_other_owner]
    = [acme; acme_other_owner]
  ∧ verificationResult
      (run new_year_2025 (supabase [acme; acme_other_owner]) (typed "LIC-2024-00001"))
    = None.
Proof.
  split; [reflexivity|].
  by rewrite (duplicate_number_fails_lookup Date.iso_parse Date.utc_long_date
                new_year_2025 [acme; acme_other_owner] (typed "LIC-2024-00001")
                acme acme_other_owner [] eq_refl).
Defined.

Lemma endless_license_example :
  supabase [acme_no_expiry] "LIC-2024-00001"
    = Fulfilled {| data := Some (select acme_no_expiry); error := None |}
  ∧ Date.iso_parse (sel_expiry_date (select acme_no_expiry)) = None
  ∧ ∃ res,
      verificationResult
        (run (new_year_2025 + 1) (supabase [acme_no_expiry]) (typed "LIC-2024-00001"))
      = Some res
      ∧ res !! "isValid" = Some (VBool true)
      ∧ res !! "status" = Some (VStr "active").
Proof.
  split; [reflexivity|]. split; [reflexivity|].
  exact (unparseable_expiry_never_expires Date.iso_parse Date.utc_long_date
           (new_year_2025 + 1) (supabase [acme_no_expiry])
           (typed "LIC-2024-00001") (select acme_no_expiry) eq_refl eq_refl).
Defined.

Lemma earlier_lookup_example :
  (1704067200000 ≤ new_year_2025)%Z
  ∧ found new_year_2025 (select acme) !! "isValid" = Some (VBool true)
  ∧ found 1704067200000 (select acme) !! "isValid" = Some (VBool true).
Proof.
  assert (Hle : (1704067200000 ≤ new_year_2025)%Z) by (unfold new_year_2025; lia).
  split; [exact Hle|]. split; [reflexivity|].
  exact (proj1 (validity_decays_with_time Date.iso_parse Date.utc_long_date
                  1704067200000 new_year_2025 (select acme) Hle) eq_refl).
Defined.

Lemma fresh_page_example :
  licenseId (typed "LIC-2024-00001")
    = licenseId (setLoading true (setVerificationResult None (typed "LIC-2024-00001")))
  ∧ verificationResult (run new_year_2025 (supabase [acme]) (typed "LIC-2024-00001"))
    = verificationResult
        (run new_year_2025 (supabase [acme])
           (setLoading true (setVerificationResult None (typed "LIC-2024-00001")))).
Proof.
  split; [reflexivity|].
  exact (proj1 (result_independent_of_history Date.iso_parse Date.utc_long_date
                  new_year_2025 (supabase [acme]) (typed "LIC-2024-00001")
                  (setLoading true (setVerificationResult None (typed "LIC-2024-00001")))
                  eq_refl)).
Defined.


Lemma writer_reads_example :
  RLS.permits_existing LicensePolicies.policies as_root RLS.UPDATE acme = true
  ∧ RLS.permits_existing LicensePolicies.policies as_root RLS.SELECT acme = true.
Proof.
  split; [reflexivity|].
  destruct (whoever_may_write_may_read as_root RLS.UPDATE (or_introl eq_refl))
    as (_ & _ & _ & Hlic).
  exact (Hlic acme eq_refl).
Defined.

Lemma new_user_example :
  ∃ profiles' user_roles',
    Profiles.handle_new_user "2024-05-01T08:00:00+00:00"
      "11111111-0000-4000-8000-000000000003" lee [dana_profile] role_rows
    = Some (profiles', user_roles')
    ∧ UserRoles.has_role user_roles' (Some (Profiles.new_id lee)) UserRoles.user = true
    ∧ UserRoles.has_role user_roles' (Some (Profiles.new_id lee)) UserRoles.admin = false.
Proof.
  eexists _, _. split; [reflexivity|].
  destruct (new_user_gets_profile_and_user_role "2024-05-01T08:00:00+00:00"
              "11111111-0000-4000-8000-000000000003" lee [dana_profile] role_rows
              _ _ eq_refl) as (Huser & Hadmin & _).
  split; [exact Huser|]. rewrite Hadmin. reflexivity.
Defined.

Lemma new_user_keys_example :
  NoDup (Profiles.id <$> [dana_profile])
  ∧ NoDup (UserRoles.id <$> role_rows)
  ∧ UserRoles.unique_user_role role_rows
  ∧ ∃ profiles' user_roles',
      Profiles.handle_new_user "2024-05-01T08:00:00+00:00"
        "11111111-0000-4000-8000-000000000003" lee [dana_profile] role_rows
      = Some (profiles', user_roles')
      ∧ NoDup (Profiles.id <$> profiles')
      ∧ UserRoles.unique_user_role user_roles'.
Proof.
  assert (Hp : NoDup (Profiles.id <$> [dana_profile])) by compute_done.
  assert (Hr : NoDup (UserRoles.id <$> role_rows)) by compute_done.
  assert (Hu : UserRoles.unique_user_role role_rows) by compute_done.
  split; [exact Hp|]. split; [exact Hr|]. split; [exact Hu|].
  eexists _, _. split; [reflexivity|].
  destruct (provisioning_keeps_keys_unique "2024-05-01T08:00:00+00:00"
              "11111111-0000-4000-8000-000000000003" lee [dana_profile] role_rows
              _ _ eq_refl Hp Hr Hu) as (Hp' & _ & Hu').
  split; [exact Hp'|exact Hu'].
Defined.

Lemma second_provisioning_example :
  ∃ profiles' user_roles',
    Profiles.handle_new_user "2024-05-01T08:00:00+00:00"
      "11111111-0000-4000-8000-000000000003" lee [dana_profile] role_rows
    = Some (profiles', user_roles')
    ∧ Profiles.handle_new_user "2024-05-02T08:00:00+00:00"
        "11111111-0000-4000-8000-000000000004" lee profiles' user_roles'
      = None.
Proof.
  eexists _, _. split; [reflexivity|].
  exact (provisioning_happens_once "2024-05-01T08:00:00+00:00"
           "11111111-0000-4000-8000-000000000003" lee [dana_profile] role_rows
           _ _ "2024-05-02T08:00:00+00:00" "11111111-0000-4000-8000-000000000004"
           lee eq_refl eq_refl).
Defined.

Lemma store_down_example :
  unavailable (licenseId (typed "LIC-2024-00001"))
    = Fulfilled {| data := None;
                   error := Some {| code := "503"; message := "Service Unavailable" |} |}
  ∧ toasts (run new_year_2025 unavailable (typed "LIC-2024-00001"))
    = [{| title := "Error";
          description := "Failed to verify license. Please try again.";
          variant := Some "destructive" |}]
  ∧ console (run new_year_2025 unavailable (typed "LIC-2024-00001"))
    = ["Verification error: Service Unavailable"].
Proof.
  split; [reflexivity|].
  destruct (handler_always_settles Date.iso_parse Date.utc_long_date
              new_year_2025 unavailable (typed "LIC-2024-00001"))
    as (_ & _ & _ & Herr & _).
  destruct (Herr _ _ eq_refl) as (_ & Htoasts & Hconsole).
  split; [exact Htoasts|exact Hconsole].
Defined.

Lemma expired_panel_example :
  supabase [acme] (licenseId (typed "LIC-2024-00001"))
    = Fulfilled {| data := Some (select acme); error := None |}
  ∧ Date.lt (Date.iso_parse (sel_expiry_date (select acme)))
      (Some (new_year_2025 + 1)%Z) = true
  ∧ result_panel
      (verificationResult
         (run (new_year_2025 + 1) (supabase [acme]) (typed "LIC-2024-00001")))
    = ["Invalid License"; "This license could not be verified"].
Proof.
  split; [reflexivity|]. split; [reflexivity|].
  destruct (details_only_for_valid_license Date.iso_parse Date.utc_long_date
              (new_year_2025 + 1) (supabase [acme]) (typed "LIC-2024-00001"))
    as (_ & _ & _ & Hmatch).
  destruct (Hmatch (select acme) eq_refl) as [_ Hinvalid].
  apply Hinvalid. intros [_ Hexp]. discriminate Hexp.
Defined.

End MoreExamples.

Section MoreApplyExamples.

Import Zod Apply Sample Cases.

Lemma stripped_status_example :
  safeParse simple_email applicationSchema (form_values long_description)
    = Success (strip applicationSchema (form_values long_description))
  ∧ form_values long_description !! "status" = Some (VStr "approved")
  ∧ strip applicationSchema (form_values long_description) !! "status" = None.
Proof.
  split; [vm_compute; reflexivity|]. split; [reflexivity|].
  assert (Hout : "status" ∉ applicationSchema.*1) by compute_done.
  exact (proj2 (parsed_value_keeps_schema_fields_only simple_email
                  (form_values long_description) _ eq_refl) "status" Hout).
Defined.

Lemma missing_phone_example :
  "phone_number" ∈ applicationSchema.*1
  ∧ form_without_phone !! "phone_number" = None
  ∧ ∃ errs,
      handleSubmit simple_email accepting form_without_phone signed_in
      = (setErrors errs signed_in, [])
      ∧ errs !! "phone_number" = Some "Required".
Proof.
  assert (Hk : "phone_number" ∈ applicationSchema.*1) by compute_done.
  split; [exact Hk|]. split; [reflexivity|].
  exact (missing_field_is_required simple_email accepting form_without_phone
           signed_in "phone_number" Hk eq_refl).
Defined.

Lemma rejected_form_example :
  let issues :=
    [ {| path := "business_description";
         issue_message :=
           "Please provide a detailed description (at least 20 characters)" |} ] in
  safeParse simple_email applicationSchema (form_values short_description)
    = Failure issues
  ∧ handleSubmit simple_email accepting (form_values short_description) signed_in
    = (setErrors (toFieldErrors issues) signed_in, []).
Proof.
  simpl. split; [vm_compute; reflexivity|].
  exact (proj1 (rejected_form_only_sets_errors simple_email accepting
                  (form_values short_description) signed_in _ eq_refl)).
Defined.

Lemma accepted_submission_example :
  user signed_in = Some dana
  ∧ (onSubmit accepting (form_values long_description) signed_in).2
    = [insert_payload dana (form_values long_description)]
  ∧ loading (onSubmit accepting (form_values long_description) signed_in).1 = false.
Proof.
  split; [reflexivity|].
  destruct (signed_in_submission_outcomes accepting
              (form_values long_description) signed_in dana eq_refl)
    as (Hsent & Hloading & _).
  split; [exact Hsent|exact Hloading].
Defined.

Lemma payload_fields_example :
  let row := insert_payload dana (strip applicationSchema (form_values long_description)) in
  row ∈ (handleSubmit simple_email accepting (form_values long_description) signed_in).2
  ∧ "contact_email" ∈ applicationSchema.*1
  ∧ row !! "contact_email" = form_values long_description !! "contact_email".
Proof.
  simpl.
  assert (Hin : insert_payload dana
                  (strip applicationSchema (form_values long_description))
                ∈ (handleSubmit simple_email accepting
                     (form_values long_description) signed_in).2)
    by (vm_compute; left).
  assert (Hk : "contact_email" ∈ applicationSchema.*1) by compute_done.
  split; [exact Hin|]. split; [exact Hk|].
  exact (proj1 (payload_carries_the_validated_fields simple_email accepting
                  (form_values long_description) signed_in _ Hin)
           "contact_email" Hk).
Defined.

Lemma stored_submission_example :
  safeParse simple_email applicationSchema (form_values long_description)
    = Success (strip applicationSchema (form_values long_description))
  ∧ user signed_in = Some dana
  ∧ ("33333333-0000-4000-8000-000000000001"
     ∉ (Applications.id <$> @nil Applications.Row))
  ∧ ∃ row n r,
      (handleSubmit simple_email accepting (form_values long_description) signed_in).2
      = [row]
      ∧ Applications.of_payload row = Some n
      ∧ Applications.insert as_dana [dana_id] [] "2024-03-01T09:00:00+00:00"
          "33333333-0000-4000-8000-000000000001" n
        = Applications.Inserted r
      ∧ Applications.status r = "pending"
      ∧ Applications.insert anonymous [dana_id] [] "2024-03-01T09:00:00+00:00"
          "33333333-0000-4000-8000-000000000001" n
        = Applications.RowSecurityViolation.
Proof.
  assert (Hparse : safeParse simple_email applicationSchema (form_values long_description)
                   = Success (strip applicationSchema (form_values long_description)))
    by (vm_compute; reflexivity).
  assert (Hfresh : "33333333-0000-4000-8000-000000000001"
                   ∉ (Applications.id <$> @nil Applications.Row))
    by apply not_elem_of_nil.
  split; [exact Hparse|]. split; [reflexivity|]. split; [exact Hfresh|].
  destruct (valid_submission_is_stored_for_its_owner simple_email as_dana
              [dana_id] [] "2024-03-01T09:00:00+00:00"
              "33333333-0000-4000-8000-000000000001" accepting
              (form_values long_description) signed_in dana _ Hparse eq_refl Hfresh)
    as (row & n & Hsent & Hn & _ & Hself).
  destruct (Hself eq_refl ltac:(left)) as (r & Hr & _ & Hstatus & _).
  destruct (valid_submission_is_stored_for_its_owner simple_email anonymous
              [dana_id] [] "2024-03-01T09:00:00+00:00"
              "33333333-0000-4000-8000-000000000001" accepting
              (form_values long_description) signed_in dana _ Hparse eq_refl Hfresh)
    as (row' & n' & Hsent' & Hn' & Hother & _).
  assert (row' = row) by congruence. subst row'.
  assert (n' = n) by congruence. subst n'.
  exists row, n, r.
  split; [exact Hsent|]. split; [exact Hn|]. split; [exact Hr|].
  split; [exact Hstatus|]. apply Hother. discriminate.
Defined.

Lemma sign_out_example :
  user signed_in = Some dana
  ∧ RLS.uid anonymous = None
  ∧ Applications.of_payload
      (insert_payload dana (strip applicationSchema (form_values long_description)))
    = Some dana_new_row
  ∧ (onSubmit accepting (strip applicationSchema (form_values long_description))
       (onAuthStateChange None signed_in)).2
    = [insert_payload dana (strip applicationSchema (form_values long_description))]
  ∧ Applications.insert anonymous [dana_id] [] "2024-03-01T09:00:00+00:00"
      "33333333-0000-4000-8000-000000000001" dana_new_row
    = Applications.RowSecurityViolation.
Proof.
  assert (Hn : Applications.of_payload
                 (insert_payload dana
                    (strip applicationSchema (form_values long_description)))
               = Some dana_new_row) by (vm_compute; reflexivity).
  split; [reflexivity|]. split; [reflexivity|]. split; [exact Hn|].
  destruct (sign_out_leaves_the_guard_to_the_store anonymous [dana_id] []
              "2024-03-01T09:00:00+00:00" "33333333-0000-4000-8000-000000000001"
              accepting (strip applicationSchema (form_values long_description))
              signed_in dana dana_new_row eq_refl eq_refl Hn)
    as (_ & Hsent & Hrefused).
  split; [exact Hsent|exact Hrefused].
Defined.

Lemma accepted_insert_example :
  Applications.insert as_dana [dana_id] [] "2024-03-01T09:00:00+00:00"
    "33333333-0000-4000-8000-000000000001" dana_new_row
  = Applications.Inserted dana_application
  ∧ RLS.uid as_dana = Some (Applications.user_id dana_application)
  ∧ Forall (λ x, Applications.status_check x = true) ([] ++ [dana_application]).
Proof.
  assert (Hins : Applications.insert as_dana [dana_id] []
                   "2024-03-01T09:00:00+00:00"
                   "33333333-0000-4000-8000-000000000001" dana_new_row
                 = Applications.Inserted dana_application)
    by (vm_compute; reflexivity).
  split; [exact Hins|].
  destruct (accepted_insert_keeps_table_constraints as_dana [dana_id] []
              "2024-03-01T09:00:00+00:00" "33333333-0000-4000-8000-000000000001"
              dana_new_row dana_application Hins)
    as (_ & Hown & _ & _ & Hchecks & _).
  split; [exact Hown|]. apply Hchecks. constructor.
Defined.

End MoreApplyExamples.
